(** * FST performance regression checker (scripts/check_fst_regression.py)

    A shallow embedding of the regression checker: the result loader,
    the pairwise analysis, the reconciliation of the two runs, the
    verdict and the command line entry point, together with the
    properties of the written specification that concern them.

    Python values are modelled as the script handles them: a JSON number
    is a Python [int] (unbounded, [Z]) or a Python [float] (IEEE 754
    binary64, [spec_float] with precision 53 and maximal exponent 1024);
    dictionaries keyed by benchmark name are [gmap string _]; sets of
    names are [gset string]; exceptions and [sys.exit] are the error
    component of a small monad, and [print] appends to an output log. *)

From Stdlib Require Import ZArith Lia.
From Stdlib Require Import Floats.SpecFloat.
From stdpp Require Import base option list gmap strings sorting.

Open Scope Z_scope.

(* stdpp's solvers clear hypotheses that may already be gone. *)
Set Warnings "-clear-no-such-hyp".

(** ** Exceptions *)

Inductive exn :=
  | KeyError (key : string)
  | ZeroDivisionError
  | OverflowError
  | SystemExit (code : Z).

Inductive result (A : Type) :=
  | Ok (a : A)
  | Raise (e : exn).
Arguments Ok {A} a.
Arguments Raise {A} e.

#[global] Instance result_ret : MRet result := @Ok.
#[global] Instance result_bind : MBind result := fun A B f m =>
  match m with
  | Ok a => f a
  | Raise e => Raise e
  end.

(** ** Python numbers *)

Module Py.

Definition prec : Z := 53.
Definition emax : Z := 1024.

(** The double nearest to a small integer (exact below [2^53]). *)
Definition float_of_Z (z : Z) : spec_float := binary_normalize prec emax z 0 false.

(** Magnitudes from [2^1024 - 2^970] on round to a value outside the
    range of a double. *)
Definition overflow_threshold : Z := 2 ^ 1024 - 2 ^ 970.

Inductive num :=
  | Int (z : Z)
  | Float (f : spec_float).

(** [float(z)]: round to nearest, ties to even; [OverflowError] when
    the integer is too large for a double. *)
Definition int_to_float (z : Z) : result spec_float :=
  if Z.abs z <? overflow_threshold then Ok (float_of_Z z) else Raise OverflowError.

Definition as_float (x : num) : result spec_float :=
  match x with
  | Int z => int_to_float z
  | Float f => Ok f
  end.

Definition float_is_zero (f : spec_float) : bool :=
  match f with
  | S754_zero _ => true
  | _ => false
  end.

(** [x == 0] for a number. *)
Definition is_zero (x : num) : bool :=
  match x with
  | Int z => z =? 0
  | Float f => float_is_zero f
  end.

(** [x * y] *)
Definition mul (x y : num) : result num :=
  match x, y with
  | Int a, Int b => Ok (Int (a * b))
  | _, _ =>
      a ← as_float x;
      b ← as_float y;
      Ok (Float (SFmul prec emax a b))
  end.

(** [x - y] *)
Definition sub (x y : num) : result num :=
  match x, y with
  | Int a, Int b => Ok (Int (a - b))
  | _, _ =>
      a ← as_float x;
      b ← as_float y;
      Ok (Float (SFsub prec emax a b))
  end.

(** [a / b] on two ints: the correctly rounded quotient. The quotient
    is computed with at least 55 significant bits and a sticky bit
    for the remainder, then rounded once. *)
Definition int_true_divide (a b : Z) : result spec_float :=
  if b =? 0 then Raise ZeroDivisionError
  else
    let negate := xorb (a <? 0) (b <? 0) in
    if a =? 0 then Ok (S754_zero negate)
    else if overflow_threshold * Z.abs b <=? Z.abs a then Raise OverflowError
    else
      let s := Z.max 0 (55 + Z.log2 (Z.abs b) - Z.log2 (Z.abs a)) in
      let q := (Z.abs a * 2 ^ s) / Z.abs b in
      let r := (Z.abs a * 2 ^ s) mod Z.abs b in
      let m := 2 * q + (if r =? 0 then 0 else 1) in
      Ok (binary_normalize prec emax (if negate then - m else m) (- s - 1) negate).

(** [x / y] (true division). With a float operand both operands are
    converted first, then a zero divisor raises; the divisor is tested
    as the number it is (an int converts to the double zero only when
    it is [0]). *)
Definition truediv (x y : num) : result num :=
  match x, y with
  | Int a, Int b => f ← int_true_divide a b; Ok (Float f)
  | _, _ =>
      a ← as_float x;
      b ← as_float y;
      if is_zero y then Raise ZeroDivisionError
      else Ok (Float (SFdiv prec emax a b))
  end.

(** [x <= k] for an int literal [k] that a double holds exactly:
    Python compares a float with an int by value, which for such a
    [k] is the comparison with the double [k]. *)
Definition le_lit (x : num) (k : Z) : bool :=
  match x with
  | Int z => z <=? k
  | Float f => SFleb f (float_of_Z k)
  end.

(** [k < x], the strict comparison in the other direction. *)
Definition lit_lt (k : Z) (x : num) : bool :=
  match x with
  | Int z => k <? z
  | Float f => SFltb (float_of_Z k) f
  end.

End Py.

(** ** Output *)

Inductive stream := Stdout | Stderr.

(** ** Data model *)

Inductive RegressionLevel :=
  | IMPROVEMENT
  | ACCEPTABLE
  | WARNING
  | CRITICAL.

#[global] Instance RegressionLevel_eq_dec : EqDecision RegressionLevel.
Proof. solve_decision. Defined.

Record BenchmarkResult := {
  name : string;
  time_ns : Py.num;
  items_per_sec : Py.num;
  label : string
}.

Record RegressionAnalysis := {
  a_name : string;
  baseline_ns : Py.num;
  current_ns : Py.num;
  regression_pct : Py.num;
  level : RegressionLevel
}.

(** What one [print] call, or one group of consecutive [print] calls,
    writes. The text layout is not modelled; the data it renders is.
    A tier group is its heading (with the number of its rows) followed
    by one line per analysis. *)
Inductive message :=
  | MsgFileNotFound (filename : string)
  | MsgInvalidJSON (filename : string)
  | MsgBanner (baseline_file current_file : string)
  | MsgNoCommonBenchmarks
  | MsgAnalysisHeader
  | MsgGroupHeader (lvl : RegressionLevel) (count : nat)
  | MsgRow (a : RegressionAnalysis)
  | MsgNewBenchmarks (names : list string)
  | MsgRemovedBenchmarks (names : list string)
  | MsgSummary (improvements acceptable warnings criticals total : nat)
  | MsgFail
  | MsgPassWithWarnings
  | MsgPass
  | MsgUsage
  | MsgTraceback (e : exn).

Definition output := list (stream * message).

(** Computations that print and may raise: the log is threaded through
    and survives an exception. *)
Definition io (A : Type) : Type := output → result A * output.

#[global] Instance io_ret : MRet io := fun A a out => (Ok a, out).
#[global] Instance io_bind : MBind io := fun A B f m out =>
  match m out with
  | (Ok a, out') => f a out'
  | (Raise e, out') => (Raise e, out')
  end.

Definition print (s : stream) (m : message) : io unit :=
  fun out => (Ok tt, out ++ [(s, m)]).

Definition lift {A} (r : result A) : io A := fun out => (r, out).

(** [sys.exit(code)] *)
Definition sys_exit {A} (code : Z) : io A := lift (Raise (SystemExit code)).

(** ** Input documents

    A benchmark entry is a JSON object. The keys the loader reads are
    modelled, each one absent or holding a value of the type that
    Google Benchmark writes for it. *)

Record benchmark := {
  j_name : option string;
  j_real_time : option Py.num;
  j_cpu_time : option Py.num;
  j_time_unit : option string;
  j_items_per_second : option Py.num;
  j_label : option string
}.

(** The top-level JSON object; ['benchmarks'] may be absent. *)
Record document := { j_benchmarks : option (list benchmark) }.

(** What [open] and [json.load] find under a file name: no file, a
    file that is not JSON, or a JSON document of the shape above. Other
    failures of the operating system and documents of another shape are
    outside this model. *)
Inductive file :=
  | FileMissing
  | FileInvalidJSON
  | FileJSON (data : document).

Definition filesystem := string → file.

(** ** load_benchmark_results *)

(** [dict.get(key, dflt)] on an optional field. *)
Definition get {A} (field : option A) (dflt : A) : A := default dflt field.

(** [benchmark['name']] *)
Definition getitem_name (b : benchmark) : result string :=
  match j_name b with
  | Some n => Ok n
  | None => Raise (KeyError "name")
  end.

(** The timing value before unit conversion: [real_time], else
    [cpu_time], else [0]. *)
Definition raw_time (b : benchmark) : Py.num :=
  get (j_real_time b) (get (j_cpu_time b) (Py.Int 0)).

(** The conversion to nanoseconds. *)
Definition convert_time (time_unit : string) (t : Py.num) : result Py.num :=
  if decide (time_unit = "ms") then Py.mul t (Py.Int 1000000)
  else if decide (time_unit = "us") then Py.mul t (Py.Int 1000)
  else Ok t.

(** One iteration of the loop over [data.get('benchmarks', [])]. *)
Definition load_entry (results : gmap string BenchmarkResult) (b : benchmark)
    : result (gmap string BenchmarkResult) :=
  name ← getitem_name b;
  let time_ns := raw_time b in
  let time_unit := get (j_time_unit b) "ns" in
  time_ns ← convert_time time_unit time_ns;
  let items_per_sec := get (j_items_per_second b) (Py.Int 0) in
  let label := get (j_label b) "" in
  Ok (<[name := {| name := name; time_ns := time_ns;
                   items_per_sec := items_per_sec; label := label |}]> results).

Fixpoint load_entries (results : gmap string BenchmarkResult) (bs : list benchmark)
    : result (gmap string BenchmarkResult) :=
  match bs with
  | [] => Ok results
  | b :: bs' => results' ← load_entry results b; load_entries results' bs'
  end.

(** [data.get('benchmarks', [])] *)
Definition entries (data : document) : list benchmark := get (j_benchmarks data) [].

Definition load_document (data : document) : result (gmap string BenchmarkResult) :=
  load_entries ∅ (entries data).

Definition load_benchmark_results (fs : filesystem) (filename : string)
    : io (gmap string BenchmarkResult) :=
  match fs filename with
  | FileMissing =>
      _ ← print Stderr (MsgFileNotFound filename); sys_exit 2
  | FileInvalidJSON =>
      _ ← print Stderr (MsgInvalidJSON filename); sys_exit 2
  | FileJSON data => lift (load_document data)
  end.

(** ** analyze_regression *)

Definition classify (regression_pct : Py.num) : RegressionLevel :=
  if Py.le_lit regression_pct (-5) then IMPROVEMENT
  else if Py.le_lit regression_pct 10 then ACCEPTABLE
  else if Py.le_lit regression_pct 20 then WARNING
  else CRITICAL.

(** [((current_ns - baseline_ns) / baseline_ns) * 100] *)
Definition percent_change (baseline_ns current_ns : Py.num) : result Py.num :=
  d ← Py.sub current_ns baseline_ns;
  q ← Py.truediv d baseline_ns;
  Py.mul q (Py.Int 100).

Definition analyze_regression (baseline current : BenchmarkResult)
    : result RegressionAnalysis :=
  let baseline_ns := time_ns baseline in
  let current_ns := time_ns current in
  regression_pct ← percent_change baseline_ns current_ns;
  let level := classify regression_pct in
  Ok {| a_name := name baseline; baseline_ns := baseline_ns;
        current_ns := current_ns; regression_pct := regression_pct;
        level := level |}.

(** ** check_regressions *)

(** [sorted(names)] on a set of strings: ascending in the order of the
    strings' characters. *)
Definition sorted (names : gset string) : list string :=
  merge_sort String.le (elements names).

(** [results[name]] *)
Definition getitem (results : gmap string BenchmarkResult) (key : string)
    : result BenchmarkResult :=
  match results !! key with
  | Some r => Ok r
  | None => Raise (KeyError key)
  end.

(** The body of the loop over [sorted(common_names)]. *)
Definition analyze_name (baseline_results current_results : gmap string BenchmarkResult)
    (name : string) : result RegressionAnalysis :=
  b ← getitem baseline_results name;
  c ← getitem current_results name;
  analyze_regression b c.

Definition analyze_all (baseline_results current_results : gmap string BenchmarkResult)
    (names : list string) : result (list RegressionAnalysis) :=
  mapM (analyze_name baseline_results current_results) names.

(** The loop that collects [analyses]: one analysis for every name in
    [sorted(common_names)], in that order. *)
Definition analyze_common (baseline_results current_results : gmap string BenchmarkResult)
    (common_names : gset string) : result (list RegressionAnalysis) :=
  analyze_all baseline_results current_results (sorted common_names).

(** [[a for a in analyses if a.level == lvl]] *)
Definition bucket (lvl : RegressionLevel) (analyses : list RegressionAnalysis)
    : list RegressionAnalysis :=
  filter (fun a => level a = lvl) analyses.

(** [if xs: print(...)] *)
Definition print_unless_empty {A} (xs : list A) (m : message) : io unit :=
  match xs with
  | [] => mret tt
  | _ => print Stdout m
  end.

(** [RegressionAnalysis.__str__]: the line of one analysis. The fields
    [:10.1f] and [:+6.1f] format a number as a float, so an int is
    converted first and an int too large for a float raises
    [OverflowError]. *)
Definition format_row (a : RegressionAnalysis) : result message :=
  _ ← Py.as_float (baseline_ns a);
  _ ← Py.as_float (current_ns a);
  _ ← Py.as_float (regression_pct a);
  Ok (MsgRow a).

(** [for a in rows: print(f"  {a}")] *)
Fixpoint print_rows (rows : list RegressionAnalysis) : io unit :=
  match rows with
  | [] => mret tt
  | a :: rows' =>
      m ← lift (format_row a);
      _ ← print Stdout m;
      print_rows rows'
  end.

(** [if rows: print(heading); for a in rows: print(f"  {a}")] *)
Definition print_group (lvl : RegressionLevel) (rows : list RegressionAnalysis)
    : io unit :=
  match rows with
  | [] => mret tt
  | _ =>
      _ ← print Stdout (MsgGroupHeader lvl (length rows));
      print_rows rows
  end.

(** Grouping by severity, the report and the pass/fail decision: the
    part of [check_regressions] after the analyses are collected. *)
Definition report (analyses : list RegressionAnalysis)
    (only_baseline only_current : gset string) : io bool :=
  let improvements := bucket IMPROVEMENT analyses in
  let acceptable := bucket ACCEPTABLE analyses in
  let warnings := bucket WARNING analyses in
  let criticals := bucket CRITICAL analyses in
  _ ← print Stdout MsgAnalysisHeader;
  _ ← print_group IMPROVEMENT improvements;
  _ ← print_group ACCEPTABLE acceptable;
  _ ← print_group WARNING warnings;
  _ ← print_group CRITICAL criticals;
  _ ← print_unless_empty (elements only_current) (MsgNewBenchmarks (sorted only_current));
  _ ← print_unless_empty (elements only_baseline) (MsgRemovedBenchmarks (sorted only_baseline));
  _ ← print Stdout (MsgSummary (length improvements) (length acceptable)
                               (length warnings) (length criticals) (length analyses));
  let has_critical := bool_decide (0 < length criticals)%nat in
  let has_warning := bool_decide (0 < length warnings)%nat in
  if has_critical then
    _ ← print Stdout MsgFail; mret false
  else if has_warning then
    _ ← print Stdout MsgPassWithWarnings; mret true
  else
    _ ← print Stdout MsgPass; mret true.

(** The three name sets: [(common_names, only_baseline, only_current)]. *)
Definition reconcile (baseline_results current_results : gmap string BenchmarkResult)
    : gset string * gset string * gset string :=
  let baseline_names : gset string := dom baseline_results in
  let current_names : gset string := dom current_results in
  let common_names := baseline_names ∩ current_names in
  let only_baseline := baseline_names ∖ current_names in
  let only_current := current_names ∖ baseline_names in
  (common_names, only_baseline, only_current).

Definition check_regressions (fs : filesystem) (current_file baseline_file : string)
    : io bool :=
  _ ← print Stdout (MsgBanner baseline_file current_file);
  baseline_results ← load_benchmark_results fs baseline_file;
  current_results ← load_benchmark_results fs current_file;
  let '(common_names, only_baseline, only_current) :=
    reconcile baseline_results current_results in
  if decide (common_names = ∅) then
    _ ← print Stdout MsgNoCommonBenchmarks; mret false
  else
    analyses ← lift (analyze_common baseline_results current_results common_names);
    report analyses only_baseline only_current.

(** ** main *)

(** [argv] is [sys.argv]: the script name followed by the arguments. *)
Definition main (fs : filesystem) (argv : list string) : io unit :=
  if decide (length argv ≠ 3%nat) then
    _ ← print Stdout MsgUsage; sys_exit 2
  else
    let current_file := argv !!! 1%nat in
    let baseline_file := argv !!! 2%nat in
    passed ← check_regressions fs current_file baseline_file;
    sys_exit (if passed : bool then 0 else 1).

(** The interpreter around [main]: [sys.exit(code)] ends the process
    with that code; any other exception is not caught anywhere, so the
    interpreter writes a traceback to the error stream and ends the
    process with code 1. *)
Definition run_script (fs : filesystem) (argv : list string) : Z * output :=
  match main fs argv [] with
  | (Ok _, out) => (0, out)
  | (Raise (SystemExit code), out) => (code, out)
  | (Raise e, out) => (1, out ++ [(Stderr, MsgTraceback e)])
  end.

(** ** Notions used in the statements *)

(** Integers a JSON timing can reasonably hold: far inside the range
    of a double. Floats are not restricted. *)
Definition in_range (x : Py.num) : Prop :=
  match x with
  | Py.Int z => Z.abs z < 2 ^ 1000
  | Py.Float _ => True
  end.

(** The magnitude a difference of two integers in range can have. *)
Definition difference_in_range (x : Py.num) : Prop :=
  match x with
  | Py.Int a => Z.abs a < 2 ^ 1001
  | Py.Float _ => True
  end.

(** The answers of the six comparisons [r <= -5], [r <= 10],
    [r <= 20], [-5 < r], [10 < r], [20 < r]. *)
Definition comparisons (r : Py.num) : bool * bool * bool * (bool * bool * bool) :=
  (Py.le_lit r (-5), Py.le_lit r 10, Py.le_lit r 20,
   (Py.lit_lt (-5) r, Py.lit_lt 10 r, Py.lit_lt 20 r)).

(** The only combinations that occur: the four intervals, and a NaN,
    for which every comparison is false. *)
Inductive consistent : bool * bool * bool * (bool * bool * bool) → Prop :=
  | at_most_minus_5 : consistent (true, true, true, (false, false, false))
  | up_to_10 : consistent (false, true, true, (true, false, false))
  | up_to_20 : consistent (false, false, true, (true, true, false))
  | above_20 : consistent (false, false, false, (true, true, true))
  | unordered : consistent (false, false, false, (false, false, false)).

Definition named (b : benchmark) : Prop := is_Some (j_name b).

(** The file holds a document from which the loader builds [results]. *)
Definition loads (fs : filesystem) (filename : string)
    (results : gmap string BenchmarkResult) : Prop :=
  ∃ data, fs filename = FileJSON data ∧ load_document data = Ok results.

(** The names the two mappings share. *)
Definition common (baseline_results current_results : gmap string BenchmarkResult)
    : gset string :=
  (reconcile baseline_results current_results).1.1.

(** ** Test documents *)

Definition entry (n : string) (t : Py.num) : benchmark :=
  {| j_name := Some n; j_real_time := Some t; j_cpu_time := None;
     j_time_unit := None; j_items_per_second := None; j_label := None |}.

Definition entry_in (n : string) (t : Py.num) (unit : string) : benchmark :=
  {| j_name := Some n; j_real_time := Some t; j_cpu_time := None;
     j_time_unit := Some unit; j_items_per_second := None; j_label := None |}.

Definition nameless (t : Py.num) : benchmark :=
  {| j_name := None; j_real_time := Some t; j_cpu_time := None;
     j_time_unit := None; j_items_per_second := None; j_label := None |}.

Definition doc (bs : list benchmark) : document := {| j_benchmarks := Some bs |}.

(** A file system holding a baseline and a current document. *)
Definition two_files (baseline current : document) : filesystem := fun filename =>
  if decide (filename = "base.json") then FileJSON baseline
  else if decide (filename = "cur.json") then FileJSON current
  else FileMissing.

Definition argv_ok : list string := ["check_fst_regression.py"; "cur.json"; "base.json"].

(** Scenario 3 of the specification. *)
Definition fs_scenario3 : filesystem :=
  two_files (doc [entry "A" (Py.Int 100); entry "B" (Py.Int 200)])
            (doc [entry "B" (Py.Int 210); entry "C" (Py.Int 50)]).

(** One entry per unit: microseconds, milliseconds, none, seconds. *)
Definition doc_units : document :=
  doc [entry_in "a" (Py.Int 5) "us"; entry_in "b" (Py.Int 2) "ms";
       entry "c" (Py.Int 7); entry_in "d" (Py.Int 3) "s"].

(** An entry without a name between two valid ones. *)
Definition doc_nameless : document :=
  doc [entry "A" (Py.Int 100); nameless (Py.Int 5); entry "B" (Py.Int 7)].

(** Scenario 4: a zero baseline. *)
Definition fs_zero_baseline : filesystem :=
  two_files (doc [entry "A" (Py.Int 0)]) (doc [entry "A" (Py.Int 10)]).

(** No benchmark in common. *)
Definition fs_disjoint : filesystem :=
  two_files (doc [entry "A" (Py.Int 100)]) (doc [entry "B" (Py.Int 100)]).

Definition result_of (n : string) (t : Py.num) : BenchmarkResult :=
  {| name := n; time_ns := t; items_per_sec := Py.Int 0; label := "" |}.

(** "A" is 15% slower (a warning), "B" is unchanged. *)
Definition doc_base : document := doc [entry "A" (Py.Int 100); entry "B" (Py.Int 200)].
Definition doc_slower : document := doc [entry "B" (Py.Int 200); entry "A" (Py.Int 115)].
Definition fs_warning : filesystem := two_files doc_base doc_slower.

(** The mapping a document loads to (empty if the load raises). *)
Definition loaded (data : document) : gmap string BenchmarkResult :=
  match load_document data with
  | Ok results => results
  | Raise _ => ∅
  end.

(** The analyses of two documents (none if a step raises). *)
Definition analysed (baseline current : document) : list RegressionAnalysis :=
  match analyze_common (loaded baseline) (loaded current)
          (common (loaded baseline) (loaded current)) with
  | Ok analyses => analyses
  | Raise _ => []
  end.

(** ** Notions for the further properties *)

(** What the loader stores for an entry: the record built in the loop
    body. *)
Definition record_of (b : benchmark) : result BenchmarkResult :=
  n ← getitem_name b;
  t ← convert_time (get (j_time_unit b) "ns") (raw_time b);
  Ok {| name := n; time_ns := t;
        items_per_sec := get (j_items_per_second b) (Py.Int 0);
        label := get (j_label b) "" |}.

(** The last entry of a list that carries a given name. *)
Fixpoint last_named (n : string) (bs : list benchmark) : option benchmark :=
  match bs with
  | [] => None
  | b :: bs' =>
      match last_named n bs' with
      | Some b' => Some b'
      | None => if decide (j_name b = Some n) then Some b else None
      end
  end.

(** The file cannot be loaded, and [m] is the complaint about it. *)
Definition unreadable (fs : filesystem) (filename : string) (m : message) : Prop :=
  (fs filename = FileMissing ∧ m = MsgFileNotFound filename) ∨
  (fs filename = FileInvalidJSON ∧ m = MsgInvalidJSON filename).

(** A number that the [f] format can render: any float, and an int
    that converts to a float. *)
Definition formattable (x : Py.num) : Prop :=
  match x with
  | Py.Int z => Z.abs z < 2 ^ 1024 - 2 ^ 970
  | Py.Float _ => True
  end.

(** An analysis whose line can be printed. *)
Definition printable (a : RegressionAnalysis) : Prop :=
  formattable (baseline_ns a) ∧ formattable (current_ns a) ∧
  formattable (regression_pct a).

#[global] Instance formattable_dec x : Decision (formattable x).
Proof. destruct x; simpl; apply _. Defined.

#[global] Instance printable_dec a : Decision (printable a).
Proof. unfold printable. apply _. Defined.

(** The lines of a tier group: nothing for an empty group, else the
    heading with the number of rows and one line per analysis of the
    tier, in the order of the analyses. *)
Definition group_lines (lvl : RegressionLevel) (analyses : list RegressionAnalysis)
    : output :=
  match bucket lvl analyses with
  | [] => []
  | rows =>
      (Stdout, MsgGroupHeader lvl (length rows)) ::
      ((fun a => (Stdout, MsgRow a)) <$> rows)
  end.

(** The analyses whose lines occur in an output, in order. *)
Definition printed_rows (out : output) : list RegressionAnalysis :=
  omap (fun e => match e.2 with MsgRow a => Some a | _ => None end) out.

(** The doubles -5.0, 10.0, 20.0, 1000.0 and 1000000.0 as sign,
    mantissa and exponent. *)
Definition double_minus_5 : spec_float := S754_finite true 5629499534213120 (-50).
Definition double_10 : spec_float := S754_finite false 5629499534213120 (-49).
Definition double_20 : spec_float := S754_finite false 5629499534213120 (-48).
Definition double_1000 : spec_float := S754_finite false 8796093022208000 (-43).
Definition double_1000000 : spec_float := S754_finite false 8589934592000000 (-33).

(** The neighbours of the thresholds: the next double above -5.0, above
    10.0 and above 20.0. *)
Definition above_minus_5 : spec_float := S754_finite true 5629499534213119 (-50).
Definition above_10 : spec_float := S754_finite false 5629499534213121 (-49).
Definition above_20_0 : spec_float := S754_finite false 5629499534213121 (-48).

(** The line listing added or removed benchmarks: nothing for none. *)
Definition names_line (names : gset string) (m : list string → message) : output :=
  match elements names with
  | [] => []
  | _ => [(Stdout, m (sorted names))]
  end.

(** The closing line of the report. *)
Definition verdict_line (analyses : list RegressionAnalysis) : message :=
  match bucket CRITICAL analyses, bucket WARNING analyses with
  | _ :: _, _ => MsgFail
  | [], _ :: _ => MsgPassWithWarnings
  | [], [] => MsgPass
  end.

(** Everything the report prints, in order. *)
Definition report_lines (analyses : list RegressionAnalysis)
    (only_baseline only_current : gset string) : output :=
  [(Stdout, MsgAnalysisHeader)] ++
  group_lines IMPROVEMENT analyses ++ group_lines ACCEPTABLE analyses ++
  group_lines WARNING analyses ++ group_lines CRITICAL analyses ++
  names_line only_current MsgNewBenchmarks ++
  names_line only_baseline MsgRemovedBenchmarks ++
  [(Stdout, MsgSummary (length (bucket IMPROVEMENT analyses))
                       (length (bucket ACCEPTABLE analyses))
                       (length (bucket WARNING analyses))
                       (length (bucket CRITICAL analyses)) (length analyses));
   (Stdout, verdict_line analyses)].

(** A double that is neither zero, infinite nor NaN, or an int in range
    other than [0]. *)
Definition finite_nonzero (x : Py.num) : Prop :=
  match x with
  | Py.Int z => z ≠ 0 ∧ Z.abs z < 2 ^ 1000
  | Py.Float (S754_finite _ _ _) => True
  | Py.Float _ => False
  end.

(** A JSON [NaN] as a timing value. *)
Definition nan : Py.num := Py.Float S754_nan.

(** An entry with a unit but without [real_time] and [cpu_time]. *)
Definition untimed (n : string) : benchmark :=
  {| j_name := Some n; j_real_time := None; j_cpu_time := None;
     j_time_unit := Some "us"; j_items_per_second := None; j_label := None |}.

Definition fs_untimed : filesystem :=
  two_files (doc [untimed "A"; entry "B" (Py.Int 7)]) (doc [entry "A" (Py.Int 10)]).

(** The same name twice, and the same entries in another order. *)
Definition doc_twice : document :=
  doc [entry "A" (Py.Int 1); entry "B" (Py.Int 2); entry_in "A" (Py.Int 3) "ms"].

Definition doc_reordered : document :=
  doc [entry_in "d" (Py.Int 3) "s"; entry "c" (Py.Int 7);
       entry_in "a" (Py.Int 5) "us"; entry_in "b" (Py.Int 2) "ms"].

(** One benchmark in every tier. *)
Definition doc_tiers_base : document :=
  doc [entry "w" (Py.Int 100); entry "c" (Py.Int 100);
       entry "i" (Py.Int 100); entry "a" (Py.Int 100)].
Definition doc_tiers_cur : document :=
  doc [entry "a" (Py.Int 100); entry "c" (Py.Int 130);
       entry "i" (Py.Int 90); entry "w" (Py.Int 115); entry "new" (Py.Int 1)].
Definition fs_tiers : filesystem := two_files doc_tiers_base doc_tiers_cur.

(** The same int in both files, too large for a float: the analysis
    succeeds (no change), its line cannot be formatted. *)
Definition doc_huge : document := doc [entry "A" (Py.Int (2 ^ 1024))].
Definition fs_huge : filesystem := two_files doc_huge doc_huge.

(** A file system without the baseline, and one with a broken current
    file. *)
Definition fs_no_baseline : filesystem := fun filename =>
  if decide (filename = "cur.json") then FileJSON doc_base else FileMissing.

Definition fs_broken_current : filesystem := fun filename =>
  if decide (filename = "base.json") then FileJSON doc_base else FileInvalidJSON.

(** * Properties *)

Example scenario3_passes :
  run_script fs_scenario3 argv_ok =
    (0, [(Stdout, MsgBanner "base.json" "cur.json");
         (Stdout, MsgAnalysisHeader);
         (Stdout, MsgGroupHeader ACCEPTABLE 1);
         (Stdout, MsgRow
            {| a_name := "B"; baseline_ns := Py.Int 200; current_ns := Py.Int 210;
               regression_pct := Py.Float (Py.float_of_Z 5); level := ACCEPTABLE |});
         (Stdout, MsgNewBenchmarks ["C"]);
         (Stdout, MsgRemovedBenchmarks ["A"]);
         (Stdout, MsgSummary 0 1 0 0 1);
         (Stdout, MsgPass)]).
Proof. vm_compute. reflexivity. Qed.

(** ** The error monad *)

Lemma bind_ok {A B} (a : A) (f : A → result B) : (Ok a ≫= f) = f a.
Proof. reflexivity. Qed.

Lemma mapM_ok_inv {A B} (f : A → result B) (l : list A) (k : list B) :
  mapM f l = Ok k → Forall2 (fun x y => f x = Ok y) l k.
Proof.
  revert k. induction l as [| x l IH]; intros k; simpl.
  - intros [= <-]. constructor.
  - destruct (f x) as [y | e] eqn:Hx; simpl; [| done].
    destruct (mapM f l) as [k' | e]; simpl; [| done].
    intros [= <-]. constructor; [done | by apply IH].
Qed.

Lemma mapM_ok_elem {A B} (f : A → result B) (l : list A) (k : list B) (x : A) :
  mapM f l = Ok k → x ∈ l → ∃ y, f x = Ok y.
Proof.
  intros Hall%mapM_ok_inv Hx.
  induction Hall as [| x' y l' k' Hxy _ IH]; [by apply elem_of_nil in Hx |].
  apply elem_of_cons in Hx as [-> | Hx]; [by exists y | by apply IH].
Qed.

Lemma mapM_raise_inv {A B} (f : A → result B) (l : list A) (e : exn) :
  mapM f l = Raise e → ∃ x, x ∈ l ∧ f x = Raise e.
Proof.
  induction l as [| x l IH]; simpl; [done |].
  destruct (f x) as [y | e'] eqn:Hx; simpl.
  - destruct (mapM f l) as [k' | e']; simpl; [done |].
    intros [= ->]. destruct IH as (x' & Hin & Hx'); [done |].
    exists x'. split; [by right | done].
  - intros [= ->]. exists x. split; [by left | done].
Qed.

(** ** Python arithmetic *)

(** Division of ints rounds once, to nearest; a zero quotient takes the
    sign of the operands. *)
Example int_true_divide_1_3 :
  Py.int_true_divide 1 3 = Ok (S754_finite false 6004799503160661 (-54)).
Proof. vm_compute. reflexivity. Qed.

Example int_true_divide_neg :
  Py.int_true_divide (-5) 100 = Ok (S754_finite true 7205759403792794 (-57)).
Proof. vm_compute. reflexivity. Qed.

Example int_true_divide_zero_neg : Py.int_true_divide 0 (-5) = Ok (S754_zero true).
Proof. reflexivity. Qed.

(** [(2^53 + 1) / 1] is a tie and goes to the even neighbour [2^53];
    a quotient of [2^1024] has no double. *)
Example int_true_divide_tie :
  Py.int_true_divide (2 ^ 53 + 1) 1 = Ok (S754_finite false 4503599627370496 1).
Proof. vm_compute. reflexivity. Qed.

Example int_true_divide_overflow :
  Py.int_true_divide (2 ^ 1025) 2 = Raise OverflowError.
Proof. vm_compute. reflexivity. Qed.

Example int_to_float_limits :
  Py.int_to_float (2 ^ 1024 - 2 ^ 970 - 1) =
    Ok (S754_finite false 9007199254740991 971) ∧
  Py.int_to_float (2 ^ 1024 - 2 ^ 970) = Raise OverflowError.
Proof. split; vm_compute; reflexivity. Qed.

Section Arithmetic.

Lemma threshold_above : 2 ^ 1001 < Py.overflow_threshold.
Proof. reflexivity. Qed.

Lemma int_to_float_ok z :
  Z.abs z < 2 ^ 1001 → Py.int_to_float z = Ok (Py.float_of_Z z).
Proof.
  intros Hz. unfold Py.int_to_float.
  pose proof threshold_above as Ht.
  destruct (Z.ltb_spec (Z.abs z) Py.overflow_threshold) as [_ | Hge]; [done | lia].
Qed.

Lemma as_float_ok x : in_range x → ∃ f, Py.as_float x = Ok f.
Proof.
  destruct x as [z | f]; simpl; intros Hx; [| by eexists].
  exists (Py.float_of_Z z). apply int_to_float_ok.
  assert (2 ^ 1000 < 2 ^ 1001) by reflexivity. lia.
Qed.

(** Multiplying by a small int literal never raises. *)
Lemma mul_lit_ok x k :
  Z.abs k < 2 ^ 1000 →
  Py.mul x (Py.Int k) =
    Ok match x with
       | Py.Int a => Py.Int (a * k)
       | Py.Float f => Py.Float (SFmul Py.prec Py.emax f (Py.float_of_Z k))
       end.
Proof.
  intros Hk. destruct x as [a | f]; [done |].
  unfold Py.mul; simpl. rewrite int_to_float_ok; [done |].
  assert (2 ^ 1000 < 2 ^ 1001) by reflexivity. lia.
Qed.

Lemma int_true_divide_ok a b :
  b ≠ 0 → Z.abs a < 2 ^ 1001 → ∃ f, Py.int_true_divide a b = Ok f.
Proof.
  intros Hb Ha. unfold Py.int_true_divide.
  destruct (Z.eqb_spec b 0) as [| _]; [done |].
  destruct (a =? 0); [by eexists |].
  pose proof threshold_above as Ht.
  destruct (Z.leb_spec (Py.overflow_threshold * Z.abs b) (Z.abs a)) as [Hle | _];
    [| by eexists].
  assert (Py.overflow_threshold * 1 ≤ Py.overflow_threshold * Z.abs b)
    by (apply Z.mul_le_mono_nonneg_l; lia).
  lia.
Qed.

Lemma truediv_zero x y :
  Py.is_zero y = true → difference_in_range x →
  Py.truediv x y = Raise ZeroDivisionError.
Proof.
  intros Hy Hx. destruct x as [a | f], y as [b | g]; simpl in *.
  - unfold Py.int_true_divide. by rewrite Hy.
  - unfold Py.truediv; simpl. rewrite int_to_float_ok by done. simpl. by rewrite Hy.
  - apply Z.eqb_eq in Hy as ->. reflexivity.
  - unfold Py.truediv; simpl. by rewrite Hy.
Qed.

Lemma truediv_ok x y :
  Py.is_zero y = false → difference_in_range x → in_range y →
  ∃ f, Py.truediv x y = Ok (Py.Float f).
Proof.
  intros Hy Hx Hry. destruct x as [a | f], y as [b | g]; simpl in *.
  - apply Z.eqb_neq in Hy.
    destruct (int_true_divide_ok a b Hy Hx) as [q ->]. by eexists.
  - unfold Py.truediv; simpl. rewrite int_to_float_ok by done. simpl.
    rewrite Hy. by eexists.
  - destruct (as_float_ok (Py.Int b) Hry) as [fb Hfb]. simpl in Hfb.
    unfold Py.truediv; simpl. rewrite Hfb. simpl. rewrite Hy. by eexists.
  - unfold Py.truediv; simpl. rewrite Hy. by eexists.
Qed.

Lemma sub_ok x y :
  in_range x → in_range y →
  ∃ d, Py.sub x y = Ok d ∧ difference_in_range d.
Proof.
  intros Hx Hy. destruct x as [a | f], y as [b | g]; simpl in *.
  - eexists; split; [done |]. simpl.
    assert (2 ^ 1001 = 2 * 2 ^ 1000) by reflexivity. lia.
  - destruct (as_float_ok (Py.Int a) Hx) as [fa Hfa]. simpl in Hfa.
    unfold Py.sub; simpl. rewrite Hfa. by eexists.
  - destruct (as_float_ok (Py.Int b) Hy) as [fb Hfb]. simpl in Hfb.
    unfold Py.sub; simpl. rewrite Hfb. by eexists.
  - by eexists.
Qed.

Lemma as_float_raises x e : Py.as_float x = Raise e → e = OverflowError.
Proof.
  destruct x as [z | f]; simpl; [| done]. unfold Py.int_to_float.
  destruct (Z.abs z <? Py.overflow_threshold); [done | by intros [= <-]].
Qed.

(** The float branch of [-] and [*]: only a conversion can raise. *)
Lemma float_op_raises (op : spec_float → spec_float → spec_float) x y e :
  (a ← Py.as_float x; b ← Py.as_float y; Ok (Py.Float (op a b))) = Raise e →
  e = OverflowError.
Proof.
  destruct (Py.as_float x) as [a | e1] eqn:Hx; simpl.
  - destruct (Py.as_float y) as [b | e2] eqn:Hy; simpl; [done |].
    intros [= <-]. by eapply as_float_raises.
  - intros [= <-]. by eapply as_float_raises.
Qed.

Lemma sub_raises x y e : Py.sub x y = Raise e → e = OverflowError.
Proof.
  destruct x as [a | f], y as [b | g]; unfold Py.sub; try done;
    apply float_op_raises.
Qed.

Lemma mul_raises x y e : Py.mul x y = Raise e → e = OverflowError.
Proof.
  destruct x as [a | f], y as [b | g]; unfold Py.mul; try done;
    apply float_op_raises.
Qed.

Lemma int_true_divide_raises a b e :
  Py.int_true_divide a b = Raise e → e = ZeroDivisionError ∨ e = OverflowError.
Proof.
  unfold Py.int_true_divide.
  destruct (b =? 0); [intros [= <-]; by left |].
  destruct (a =? 0); [done |].
  destruct (_ <=? _); [intros [= <-]; by right | done].
Qed.

Lemma truediv_raises x y e :
  Py.truediv x y = Raise e → e = ZeroDivisionError ∨ e = OverflowError.
Proof.
  assert (Hfloat :
    (a ← Py.as_float x; b ← Py.as_float y;
     if Py.is_zero y then Raise ZeroDivisionError
     else Ok (Py.Float (SFdiv Py.prec Py.emax a b))) = Raise e →
    e = ZeroDivisionError ∨ e = OverflowError).
  { destruct (Py.as_float x) as [a | e1] eqn:Hx; simpl.
    - destruct (Py.as_float y) as [b | e2] eqn:Hy; simpl.
      + destruct (Py.is_zero y); [intros [= <-]; by left | done].
      + intros [= <-]. right. by eapply as_float_raises.
    - intros [= <-]. right. by eapply as_float_raises. }
  destruct x as [a | f], y as [b | g]; try exact Hfloat.
  unfold Py.truediv. destruct (Py.int_true_divide a b) eqn:Hd; simpl; [done |].
  intros [= <-]. by eapply int_true_divide_raises.
Qed.

(** No quotient by a zero divisor. *)
Lemma truediv_zero_not_ok x y q : Py.is_zero y = true → Py.truediv x y ≠ Ok q.
Proof.
  intros Hy. destruct x as [a | f], y as [b | g]; unfold Py.truediv; simpl in *.
  - unfold Py.int_true_divide. by rewrite Hy.
  - destruct (Py.int_to_float a); simpl; [by rewrite Hy | done].
  - destruct (Py.int_to_float b); simpl; [by rewrite Hy | done].
  - by rewrite Hy.
Qed.

End Arithmetic.

(** ** The threshold cascade *)

Section Cascade.

(** The three thresholds as doubles. *)
Lemma float_of_minus_5 : Py.float_of_Z (-5) = S754_finite true 5629499534213120 (-50).
Proof. reflexivity. Qed.
Lemma float_of_10 : Py.float_of_Z 10 = S754_finite false 5629499534213120 (-49).
Proof. reflexivity. Qed.
Lemma float_of_20 : Py.float_of_Z 20 = S754_finite false 5629499534213120 (-48).
Proof. reflexivity. Qed.

Lemma consistent_inv c :
  consistent c →
  c = (true, true, true, (false, false, false)) ∨
  c = (false, true, true, (true, false, false)) ∨
  c = (false, false, true, (true, true, false)) ∨
  c = (false, false, false, (true, true, true)) ∨
  c = (false, false, false, (false, false, false)).
Proof. destruct 1; auto 6. Qed.

Lemma compare_cont_flip m1 m2 :
  Pos.compare_cont Eq m2 m1 = CompOpp (Pos.compare_cont Eq m1 m2).
Proof. apply Pos.compare_antisym. Qed.

Lemma float_comparisons (m1 m2 m3 : positive) (e1 e2 e3 : Z) (f : spec_float) :
  e2 < e3 →
  let k1 := S754_finite true m1 e1 in
  let k2 := S754_finite false m2 e2 in
  let k3 := S754_finite false m3 e3 in
  consistent (SFleb f k1, SFleb f k2, SFleb f k3, (SFltb k1 f, SFltb k2 f, SFltb k3 f)).
Proof.
  intros He k1 k2 k3. subst k1 k2 k3.
  destruct f as [s | s | | s m e]; unfold SFleb, SFltb; simpl.
  - constructor.
  - destruct s; constructor.
  - constructor.
  - destruct s.
    + rewrite (Z.compare_antisym e e1), (compare_cont_flip m m1).
      destruct (e ?= e1); simpl; try constructor.
      destruct (Pos.compare_cont Eq m m1); simpl; constructor.
    + rewrite (Z.compare_antisym e e2), (Z.compare_antisym e e3),
        (compare_cont_flip m m2), (compare_cont_flip m m3).
      destruct (Z.compare_spec e e2), (Z.compare_spec e e3);
        try lia; simpl; try constructor;
        destruct (Pos.compare_cont Eq m _); simpl; constructor.
Qed.

Lemma comparisons_consistent r : consistent (comparisons r).
Proof.
  destruct r as [z | f]; unfold comparisons, Py.le_lit, Py.lit_lt.
  - destruct (Z.leb_spec z (-5)), (Z.leb_spec z 10), (Z.leb_spec z 20),
      (Z.ltb_spec (-5) z), (Z.ltb_spec 10 z), (Z.ltb_spec 20 z);
      try lia; constructor.
  - rewrite float_of_minus_5, float_of_10, float_of_20.
    apply float_comparisons. lia.
Qed.

Lemma classify_cascade r :
  (classify r = IMPROVEMENT ↔ Py.le_lit r (-5) = true) ∧
  (classify r = ACCEPTABLE ↔ Py.lit_lt (-5) r = true ∧ Py.le_lit r 10 = true) ∧
  (classify r = WARNING ↔ Py.lit_lt 10 r = true ∧ Py.le_lit r 20 = true) ∧
  (classify r = CRITICAL ↔ Py.le_lit r 20 = false) ∧
  (Py.lit_lt 20 r = true → classify r = CRITICAL).
Proof.
  destruct (consistent_inv _ (comparisons_consistent r)) as [H | [H | [H | [H | H]]]];
    unfold comparisons in H; injection H as H1 H2 H3 H4 H5 H6;
    unfold classify; rewrite ?H1, ?H2, ?H3, ?H4, ?H5, ?H6; intuition congruence.
Qed.

End Cascade.

(** ** analyze_regression *)

Section Analyzer.

(** The thresholds themselves and their neighbouring doubles. *)
Example classify_boundaries :
  classify (Py.Float (S754_finite true 5629499534213120 (-50))) = IMPROVEMENT ∧
  classify (Py.Float (S754_finite true 5629499534213119 (-50))) = ACCEPTABLE ∧
  classify (Py.Float (S754_finite false 5629499534213120 (-49))) = ACCEPTABLE ∧
  classify (Py.Float (S754_finite false 5629499534213121 (-49))) = WARNING ∧
  classify (Py.Float (S754_finite false 5629499534213120 (-48))) = WARNING ∧
  classify (Py.Float (S754_finite false 5629499534213121 (-48))) = CRITICAL.
Proof. repeat split; reflexivity. Qed.

(** A NaN percentage fails every comparison and falls to the last
    branch. *)
Example classify_nan : classify (Py.Float S754_nan) = CRITICAL.
Proof. reflexivity. Qed.

Lemma percent_change_ok b c :
  Py.is_zero b = false → in_range b → in_range c →
  ∃ f, percent_change b c = Ok (Py.Float f).
Proof.
  intros Hz Hb Hc. unfold percent_change.
  destruct (sub_ok c b Hc Hb) as (d & -> & Hd). rewrite bind_ok.
  destruct (truediv_ok d b Hz Hd Hb) as (q & ->). rewrite bind_ok.
  rewrite mul_lit_ok by (simpl; lia). by eexists.
Qed.

Lemma percent_change_zero b c :
  Py.is_zero b = true → in_range b → in_range c →
  percent_change b c = Raise ZeroDivisionError.
Proof.
  intros Hz Hb Hc. unfold percent_change.
  destruct (sub_ok c b Hc Hb) as (d & -> & Hd). rewrite bind_ok.
  by rewrite truediv_zero.
Qed.

Lemma analyze_regression_level baseline current a :
  analyze_regression baseline current = Ok a →
  percent_change (time_ns baseline) (time_ns current) = Ok (regression_pct a) ∧
  level a = classify (regression_pct a) ∧
  a_name a = name baseline.
Proof.
  unfold analyze_regression.
  destruct (percent_change _ _) as [r |]; simpl; [| done].
  by intros [= <-].
Qed.

(** The values of the threshold doubles: mantissa times two to the
    exponent is 5, 10, 20, and the neighbours are one unit in the last
    place away. *)
Example threshold_values :
  (5629499534213120 = 5 * 2 ^ 50 ∧ 5629499534213120 = 10 * 2 ^ 49 ∧
   5629499534213120 = 20 * 2 ^ 48)%Z.
Proof. repeat split; reflexivity. Qed.

(** For a float the comparisons of the cascade are the library's
    comparisons with the threshold doubles. *)
Lemma le_lit_float f :
  Py.le_lit (Py.Float f) (-5) = SFleb f double_minus_5 ∧
  Py.le_lit (Py.Float f) 10 = SFleb f double_10 ∧
  Py.le_lit (Py.Float f) 20 = SFleb f double_20 ∧
  Py.lit_lt (-5) (Py.Float f) = SFltb double_minus_5 f ∧
  Py.lit_lt 10 (Py.Float f) = SFltb double_10 f ∧
  Py.lit_lt 20 (Py.Float f) = SFltb double_20 f.
Proof.
  unfold Py.le_lit, Py.lit_lt. by rewrite float_of_minus_5, float_of_10, float_of_20.
Qed.

(** C3. For a baseline time that is not zero (integer times below
    [2^1000] in magnitude, any float), the analysis is produced, its
    percentage is the float [r = ((current - baseline) / baseline) *
    100], and its tier is the one the ordered cascade selects:
    [improvement] exactly when [r <= -5.0], [acceptable] exactly when
    [-5.0 < r <= 10.0], [warning] exactly when [10.0 < r <= 20.0], and
    [critical] otherwise, in particular whenever [r > 20.0]; the
    comparisons are those of IEEE doubles. At the boundaries: -5.0 is
    an improvement and the next double above it acceptable, 10.0 is
    acceptable and the next double above it a warning, 20.0 is a
    warning and the next double above it critical. *)
Theorem tier_by_threshold_cascade (baseline current : BenchmarkResult) :
  Py.is_zero (time_ns baseline) = false →
  in_range (time_ns baseline) →
  in_range (time_ns current) →
  (∃ a r,
     analyze_regression baseline current = Ok a ∧
     percent_change (time_ns baseline) (time_ns current) = Ok (Py.Float r) ∧
     regression_pct a = Py.Float r ∧
     (level a = IMPROVEMENT ↔ SFleb r double_minus_5 = true) ∧
     (level a = ACCEPTABLE ↔ SFltb double_minus_5 r = true ∧ SFleb r double_10 = true) ∧
     (level a = WARNING ↔ SFltb double_10 r = true ∧ SFleb r double_20 = true) ∧
     (level a = CRITICAL ↔ SFleb r double_20 = false) ∧
     (SFltb double_20 r = true → level a = CRITICAL)) ∧
  classify (Py.Float double_minus_5) = IMPROVEMENT ∧
  classify (Py.Float above_minus_5) = ACCEPTABLE ∧
  classify (Py.Float double_10) = ACCEPTABLE ∧
  classify (Py.Float above_10) = WARNING ∧
  classify (Py.Float double_20) = WARNING ∧
  classify (Py.Float above_20_0) = CRITICAL.
Proof.
  intros Hz Hb Hc. split; [| repeat split; reflexivity].
  destruct (percent_change_ok _ _ Hz Hb Hc) as [f Hf].
  unfold analyze_regression. rewrite Hf. simpl.
  exists {| a_name := name baseline; baseline_ns := time_ns baseline;
            current_ns := time_ns current; regression_pct := Py.Float f;
            level := classify (Py.Float f) |}, f.
  split; [reflexivity |]. split; [reflexivity |]. split; [reflexivity |]. simpl.
  destruct (le_lit_float f) as (<- & <- & <- & <- & <- & <-).
  apply classify_cascade.
Qed.

Lemma tier_by_threshold_cascade_witness :
  Py.is_zero (Py.Int 100) = false ∧ in_range (Py.Int 100) ∧ in_range (Py.Int 125) ∧
  (∃ a r,
     analyze_regression (result_of "A" (Py.Int 100)) (result_of "A" (Py.Int 125)) = Ok a ∧
     percent_change (Py.Int 100) (Py.Int 125) = Ok (Py.Float r) ∧
     regression_pct a = Py.Float r ∧
     (level a = IMPROVEMENT ↔ SFleb r double_minus_5 = true) ∧
     (level a = ACCEPTABLE ↔ SFltb double_minus_5 r = true ∧ SFleb r double_10 = true) ∧
     (level a = WARNING ↔ SFltb double_10 r = true ∧ SFleb r double_20 = true) ∧
     (level a = CRITICAL ↔ SFleb r double_20 = false) ∧
     (SFltb double_20 r = true → level a = CRITICAL)) ∧
  classify (Py.Float double_minus_5) = IMPROVEMENT ∧
  classify (Py.Float above_minus_5) = ACCEPTABLE ∧
  classify (Py.Float double_10) = ACCEPTABLE ∧
  classify (Py.Float above_10) = WARNING ∧
  classify (Py.Float double_20) = WARNING ∧
  classify (Py.Float above_20_0) = CRITICAL.
Proof.
  assert (H100 : in_range (Py.Int 100)) by reflexivity.
  assert (H125 : in_range (Py.Int 125)) by reflexivity.
  split; [reflexivity |]. split; [exact H100 |]. split; [exact H125 |].
  exact (tier_by_threshold_cascade (result_of "A" (Py.Int 100))
           (result_of "A" (Py.Int 125)) eq_refl H100 H125).
Defined.

(** Scenarios 1 and 2 of the specification. *)
Example scenario1 :
  analyze_regression (result_of "A" (Py.Int 100)) (result_of "A" (Py.Int 95)) =
    Ok {| a_name := "A"; baseline_ns := Py.Int 100; current_ns := Py.Int 95;
          regression_pct := Py.Float (Py.float_of_Z (-5)); level := IMPROVEMENT |}.
Proof. vm_compute. reflexivity. Qed.

Example scenario2 :
  analyze_regression (result_of "A" (Py.Int 100)) (result_of "A" (Py.Int 125)) =
    Ok {| a_name := "A"; baseline_ns := Py.Int 100; current_ns := Py.Int 125;
          regression_pct := Py.Float (Py.float_of_Z 25); level := CRITICAL |}.
Proof. vm_compute. reflexivity. Qed.

Lemma percent_change_raises b c e :
  percent_change b c = Raise e → e = ZeroDivisionError ∨ e = OverflowError.
Proof.
  unfold percent_change.
  destruct (Py.sub c b) as [d | e1] eqn:Hd; simpl;
    [| intros [= <-]; right; by eapply sub_raises].
  destruct (Py.truediv d b) as [q | e2] eqn:Hq; simpl;
    [| intros [= <-]; by eapply truediv_raises].
  intros H. right. by eapply mul_raises.
Qed.

Lemma analyze_regression_raises baseline current e :
  analyze_regression baseline current = Raise e →
  e = ZeroDivisionError ∨ e = OverflowError.
Proof.
  unfold analyze_regression.
  destruct (percent_change _ _) as [r | e1] eqn:Hr; simpl; [done |].
  intros [= <-]. by eapply percent_change_raises.
Qed.

(** With a zero baseline time no analysis is produced. *)
Lemma analyze_regression_zero baseline current :
  Py.is_zero (time_ns baseline) = true →
  ∃ e, analyze_regression baseline current = Raise e ∧
       (e = ZeroDivisionError ∨ e = OverflowError).
Proof.
  intros Hz.
  destruct (analyze_regression baseline current) as [a | e] eqn:Ha.
  - exfalso. unfold analyze_regression, percent_change in Ha.
    destruct (Py.sub _ _) as [d |]; simpl in Ha; [| done].
    destruct (Py.truediv d _) as [q |] eqn:Hq; simpl in Ha; [| done].
    by eapply truediv_zero_not_ok.
  - exists e. split; [done |]. by eapply analyze_regression_raises.
Qed.

Lemma is_zero_in_range x : Py.is_zero x = true → in_range x.
Proof.
  destruct x as [z | f]; simpl; [| done].
  intros ->%Z.eqb_eq. reflexivity.
Qed.

End Analyzer.

(** ** load_benchmark_results *)

Section Loader.

Implicit Types (b : benchmark) (bs : list benchmark).
Implicit Types (results : gmap string BenchmarkResult).

Lemma convert_time_ok u t : ∃ t', convert_time u t = Ok t'.
Proof.
  unfold convert_time. repeat case_decide; rewrite ?mul_lit_ok by (simpl; lia); by eexists.
Qed.

Lemma convert_time_other u t : u ≠ "us" → u ≠ "ms" → convert_time u t = Ok t.
Proof. intros. unfold convert_time. by repeat case_decide. Qed.

Lemma load_entry_named results b n :
  j_name b = Some n →
  ∃ r, load_entry results b = Ok (<[n := r]> results) ∧ name r = n ∧
       convert_time (get (j_time_unit b) "ns") (raw_time b) = Ok (time_ns r).
Proof.
  intros Hn. unfold load_entry, getitem_name. rewrite Hn, bind_ok.
  destruct (convert_time_ok (get (j_time_unit b) "ns") (raw_time b)) as [t Ht].
  rewrite Ht, bind_ok. by eexists.
Qed.

Lemma load_entry_nameless results b :
  j_name b = None → load_entry results b = Raise (KeyError "name").
Proof. intros Hn. unfold load_entry, getitem_name. by rewrite Hn. Qed.

Lemma load_entries_app results bs1 bs2 :
  load_entries results (bs1 ++ bs2) =
    load_entries results bs1 ≫= fun results' => load_entries results' bs2.
Proof.
  revert results. induction bs1 as [| b bs1 IH]; intros results; simpl; [done |].
  destruct (load_entry results b) as [results' | e]; simpl; [apply IH | done].
Qed.

Lemma load_entries_total results bs :
  Forall named bs → ∃ results', load_entries results bs = Ok results'.
Proof.
  intros Hbs. revert results.
  induction Hbs as [| b bs [n Hn] _ IH]; intros results; simpl; [by eexists |].
  destruct (load_entry_named results b n Hn) as (r & -> & _). rewrite bind_ok. apply IH.
Qed.

(** Later entries under other names leave a stored result alone. *)
Lemma load_entries_preserve results bs n :
  Forall named bs → (∀ b, b ∈ bs → j_name b ≠ Some n) →
  ∃ results', load_entries results bs = Ok results' ∧ results' !! n = results !! n.
Proof.
  intros Hbs. revert results.
  induction Hbs as [| b bs [n' Hn'] _ IH]; intros results Hne; simpl; [by eexists |].
  destruct (load_entry_named results b n' Hn') as (r & -> & _). rewrite bind_ok.
  destruct (IH (<[n' := r]> results)) as (results' & -> & Hlook).
  { intros b' Hb'. apply Hne. by right. }
  exists results'. split; [done |]. rewrite Hlook. apply lookup_insert_ne.
  intros ->. apply (Hne b); [by left | done].
Qed.

(** An entry that no later entry shadows is stored under its name with
    its time converted. *)
Lemma load_entries_stores results bs1 b bs2 n :
  Forall named (bs1 ++ b :: bs2) → j_name b = Some n →
  (∀ b', b' ∈ bs2 → j_name b' ≠ Some n) →
  ∃ results' r,
    load_entries results (bs1 ++ b :: bs2) = Ok results' ∧
    results' !! n = Some r ∧ name r = n ∧
    convert_time (get (j_time_unit b) "ns") (raw_time b) = Ok (time_ns r).
Proof.
  intros Hall Hn Hne.
  apply Forall_app in Hall as [H1 Hall]. apply Forall_cons in Hall as [_ H2].
  rewrite load_entries_app.
  destruct (load_entries_total results bs1 H1) as [results1 ->]. rewrite bind_ok. simpl.
  destruct (load_entry_named results1 b n Hn) as (r & -> & Hname & Ht). rewrite bind_ok.
  destruct (load_entries_preserve (<[n := r]> results1) bs2 n H2 Hne) as (results' & -> & Hl).
  exists results', r. rewrite Hl, lookup_insert_eq. done.
Qed.

(** Every result is stored under its own name. *)
Lemma load_entries_names results bs results' :
  (∀ n r, results !! n = Some r → name r = n) →
  load_entries results bs = Ok results' →
  ∀ n r, results' !! n = Some r → name r = n.
Proof.
  revert results. induction bs as [| b bs IH]; intros results Hinv; simpl.
  - by intros [= <-].
  - destruct (j_name b) as [n' |] eqn:Hn'; [| by rewrite load_entry_nameless].
    destruct (load_entry_named results b n' Hn') as (r' & -> & Hname & _).
    rewrite bind_ok. apply IH. intros n r.
    destruct (decide (n' = n)) as [-> | Hne].
    + rewrite lookup_insert_eq. by intros [= <-].
    + rewrite lookup_insert_ne by done. apply Hinv.
Qed.

(** The first entry without a name ends the loop with [KeyError]. *)
Lemma load_entries_nameless results bs :
  (∃ b, b ∈ bs ∧ j_name b = None) →
  load_entries results bs = Raise (KeyError "name").
Proof.
  intros (b & Hb & Hn). revert results.
  induction bs as [| b' bs IH]; intros results; [by apply elem_of_nil in Hb |].
  simpl. destruct (j_name b') as [n' |] eqn:Hn'.
  - destruct (load_entry_named results b' n' Hn') as (r & -> & _). rewrite bind_ok.
    apply IH. apply elem_of_cons in Hb as [-> | Hb]; [congruence | done].
  - by rewrite load_entry_nameless.
Qed.

(** C6. An entry that is loaded (it has a name, no later entry of the
    document repeats that name, and every entry has a name, so that
    the load completes) is stored under its name with [time_ns] equal
    to the raw time multiplied by 1,000 when [time_unit] is "us", by
    1,000,000 when it is "ms", and equal to the raw time itself when no
    unit is given. The product of an int is the exact int product; the
    product of a float is the IEEE product with the double 1000.0 or
    1000000.0. *)
Theorem time_ns_unit_conversion (data : document) bs1 b bs2 n :
  entries data = bs1 ++ b :: bs2 →
  Forall named (entries data) →
  j_name b = Some n →
  (∀ b', b' ∈ bs2 → j_name b' ≠ Some n) →
  ∃ results r,
    load_document data = Ok results ∧
    results !! n = Some r ∧
    (j_time_unit b = Some "us" →
     time_ns r = match raw_time b with
                 | Py.Int z => Py.Int (z * 1000)
                 | Py.Float f => Py.Float (SFmul 53 1024 f double_1000)
                 end) ∧
    (j_time_unit b = Some "ms" →
     time_ns r = match raw_time b with
                 | Py.Int z => Py.Int (z * 1000000)
                 | Py.Float f => Py.Float (SFmul 53 1024 f double_1000000)
                 end) ∧
    (j_time_unit b = None → time_ns r = raw_time b).
Proof.
  intros Hdata Hall Hn Hne. unfold load_document. rewrite Hdata in *.
  destruct (load_entries_stores ∅ bs1 b bs2 n Hall Hn Hne) as (results & r & -> & Hl & _ & Ht).
  exists results, r. repeat split; [done | ..]; intros Hu; rewrite Hu in Ht; simpl in Ht.
  - unfold convert_time in Ht. rewrite decide_False, decide_True in Ht by done.
    rewrite mul_lit_ok in Ht by (simpl; lia). by injection Ht as <-.
  - unfold convert_time in Ht. rewrite decide_True in Ht by done.
    rewrite mul_lit_ok in Ht by (simpl; lia). by injection Ht as <-.
  - by injection Ht.
Qed.

Lemma time_ns_unit_conversion_witness :
  entries doc_units = [] ++ entry_in "a" (Py.Int 5) "us" :: tail (entries doc_units) ∧
  Forall named (entries doc_units) ∧
  ∃ results r,
    load_document doc_units = Ok results ∧
    results !! "a" = Some r ∧
    (Some "us" = Some "us" → time_ns r = Py.Int (5 * 1000)) ∧
    (Some "us" = Some "ms" → time_ns r = Py.Int (5 * 1000000)) ∧
    (Some "us" = None → time_ns r = Py.Int 5).
Proof.
  assert (Hall : Forall named (entries doc_units))
    by (repeat constructor; by eexists).
  split; [reflexivity |]. split; [exact Hall |].
  refine (time_ns_unit_conversion doc_units [] (entry_in "a" (Py.Int 5) "us")
            (tail (entries doc_units)) "a" eq_refl Hall eq_refl _).
  intros b' Hb'. simpl in Hb'.
  repeat (apply elem_of_cons in Hb' as [-> | Hb']; [discriminate |]).
  by apply elem_of_nil in Hb'.
Defined.

(** The two conversions of the specification: 5 us is 5000 ns and 2 ms
    is 2,000,000 ns; a time without unit is kept. *)
Example doc_units_loaded :
  (results ← load_document doc_units;
   Ok (time_ns <$> results !! "a", time_ns <$> results !! "b",
       time_ns <$> results !! "c")) =
  Ok (Some (Py.Int 5000), Some (Py.Int 2000000), Some (Py.Int 7)).
Proof. vm_compute. reflexivity. Qed.

Example float_times_converted :
  convert_time "us" (Py.Float (Py.float_of_Z 5)) = Ok (Py.Float (Py.float_of_Z 5000)) ∧
  convert_time "ms" (Py.Float (Py.float_of_Z 2)) = Ok (Py.Float (Py.float_of_Z 2000000)).
Proof. split; vm_compute; reflexivity. Qed.

(** C10. A loaded entry whose [time_unit] is present but is neither
    "us" nor "ms" is stored with its raw time unchanged, as for
    nanoseconds. *)
Theorem unrecognised_unit_kept (data : document) bs1 b bs2 n u :
  entries data = bs1 ++ b :: bs2 →
  Forall named (entries data) →
  j_name b = Some n →
  (∀ b', b' ∈ bs2 → j_name b' ≠ Some n) →
  j_time_unit b = Some u → u ≠ "us" → u ≠ "ms" →
  ∃ results r,
    load_document data = Ok results ∧
    results !! n = Some r ∧
    time_ns r = raw_time b.
Proof.
  intros Hdata Hall Hn Hne Hu Hus Hms. unfold load_document. rewrite Hdata in *.
  destruct (load_entries_stores ∅ bs1 b bs2 n Hall Hn Hne) as (results & r & -> & Hl & _ & Ht).
  exists results, r. repeat split; [done |].
  rewrite Hu in Ht. simpl in Ht. rewrite convert_time_other in Ht by done. by injection Ht.
Qed.

Lemma unrecognised_unit_kept_witness :
  entries doc_units = take 3 (entries doc_units) ++ entry_in "d" (Py.Int 3) "s" :: [] ∧
  Forall named (entries doc_units) ∧
  ∃ results r,
    load_document doc_units = Ok results ∧
    results !! "d" = Some r ∧
    time_ns r = Py.Int 3.
Proof.
  assert (Hall : Forall named (entries doc_units))
    by (repeat constructor; by eexists).
  split; [reflexivity |]. split; [exact Hall |].
  refine (unrecognised_unit_kept doc_units (take 3 (entries doc_units))
            (entry_in "d" (Py.Int 3) "s") [] "d" "s" eq_refl Hall eq_refl _ eq_refl _ _).
  - intros b' Hb'. by apply elem_of_nil in Hb'.
  - discriminate.
  - discriminate.
Defined.

(** Seconds are not converted: 3 s is stored as 3. *)
Example seconds_not_converted :
  (results ← load_document doc_units; Ok (time_ns <$> results !! "d")) =
  Ok (Some (Py.Int 3)).
Proof. vm_compute. reflexivity. Qed.

(** C5, as the code has it. An entry without a name is not skipped:
    [benchmark['name']] raises [KeyError], nothing is printed, no
    mapping is returned, and the entries after it are not read. *)
Theorem nameless_entry_raises (fs : filesystem) (filename : string) (data : document)
    (out : output) :
  fs filename = FileJSON data →
  (∃ b, b ∈ entries data ∧ j_name b = None) →
  load_benchmark_results fs filename out = (Raise (KeyError "name"), out).
Proof.
  intros Hfile Hb. unfold load_benchmark_results. rewrite Hfile.
  unfold lift, load_document. by rewrite load_entries_nameless.
Qed.

Lemma nameless_entry_raises_witness :
  two_files doc_nameless doc_nameless "cur.json" = FileJSON doc_nameless ∧
  (∃ b, b ∈ entries doc_nameless ∧ j_name b = None) ∧
  load_benchmark_results (two_files doc_nameless doc_nameless) "cur.json" [] =
    (Raise (KeyError "name"), []).
Proof.
  assert (Hb : ∃ b, b ∈ entries doc_nameless ∧ j_name b = None).
  { exists (nameless (Py.Int 5)). split; [| reflexivity]. right. left. }
  split; [reflexivity |]. split; [exact Hb |].
  exact (nameless_entry_raises (two_files doc_nameless doc_nameless) "cur.json"
           doc_nameless [] eq_refl Hb).
Defined.

(** C5 fails: with a nameless entry between two valid ones the loader
    returns no mapping and prints no warning, and the run ends with a
    traceback and exit code 1. *)
Lemma nameless_entry_not_skipped :
  load_benchmark_results (two_files doc_nameless doc_nameless) "cur.json" [] =
    (Raise (KeyError "name"), []) ∧
  (¬ ∃ results out,
     load_benchmark_results (two_files doc_nameless doc_nameless) "cur.json" [] =
       (Ok results, out)) ∧
  run_script (two_files doc_nameless doc_nameless) argv_ok =
    (1, [(Stdout, MsgBanner "base.json" "cur.json");
         (Stderr, MsgTraceback (KeyError "name"))]).
Proof.
  split; [reflexivity |]. split; [| reflexivity].
  intros (results & out & H). discriminate H.
Qed.

End Loader.

(** ** Printing computations *)

Section IO.

Lemma io_bind_ok {A B} (m : io A) (f : A → io B) out a out' :
  m out = (Ok a, out') → (m ≫= f) out = f a out'.
Proof. intros H. unfold mbind, io_bind. by rewrite H. Qed.

Lemma io_bind_raise {A B} (m : io A) (f : A → io B) out e out' :
  m out = (Raise e, out') → (m ≫= f) out = (Raise e, out').
Proof. intros H. unfold mbind, io_bind. by rewrite H. Qed.

Lemma print_unless_empty_ok {A} (xs : list A) m out :
  ∃ out', print_unless_empty xs m out = (Ok tt, out').
Proof. destruct xs; by eexists. Qed.

Lemma load_benchmark_results_ok fs filename data results out :
  fs filename = FileJSON data → load_document data = Ok results →
  load_benchmark_results fs filename out = (Ok results, out).
Proof. intros Hf Hl. unfold load_benchmark_results. by rewrite Hf, Hl. Qed.

End IO.

(** ** The partition of the names *)

Section Reconciler.

Implicit Types (B C : gmap string BenchmarkResult).

(** C8. The sets [common_names], [only_baseline] and [only_current]
    are pairwise disjoint and their union is the union of the names of
    the two mappings. *)
Theorem partition_complete B C :
  let '(common_names, only_baseline, only_current) := reconcile B C in
  common_names ## only_baseline ∧
  common_names ## only_current ∧
  only_baseline ## only_current ∧
  common_names ∪ only_baseline ∪ only_current = dom B ∪ dom C.
Proof.
  unfold reconcile. repeat split; [set_solver.. |].
  apply set_eq. intros n. destruct (decide (n ∈ dom B)), (decide (n ∈ dom C)); set_solver.
Qed.

Example scenario3_partition :
  reconcile {[ "A" := result_of "A" (Py.Int 100); "B" := result_of "B" (Py.Int 200) ]}
            {[ "B" := result_of "B" (Py.Int 210); "C" := result_of "C" (Py.Int 50) ]} =
    ({[ "B" ]}, {[ "A" ]}, {[ "C" ]}).
Proof. vm_compute. reflexivity. Qed.

Lemma sorted_spec (names : gset string) :
  StronglySorted String.le (sorted names) ∧ NoDup (sorted names) ∧
  ∀ n, n ∈ sorted names ↔ n ∈ names.
Proof.
  unfold sorted. split; [apply (StronglySorted_merge_sort _) |]. split.
  - rewrite merge_sort_Permutation. apply NoDup_elements.
  - intros n. rewrite merge_sort_Permutation. apply elem_of_elements.
Qed.

End Reconciler.

(** ** check_regressions *)

Section Verdict.

Implicit Types (B C : gmap string BenchmarkResult).
Implicit Types (analyses : list RegressionAnalysis).

Lemma loads_ok fs filename results out :
  loads fs filename results →
  load_benchmark_results fs filename out = (Ok results, out).
Proof. intros (data & Hf & Hl). by eapply load_benchmark_results_ok. Qed.

(** After the banner and the two loads, the rest of [check_regressions]
    runs on the loaded mappings. *)
Lemma check_regressions_loaded fs current_file baseline_file B C out :
  loads fs baseline_file B → loads fs current_file C →
  check_regressions fs current_file baseline_file out =
    (if decide (common B C = ∅) then
       _ ← print Stdout MsgNoCommonBenchmarks; mret false
     else
       analyses ← lift (analyze_common B C (common B C));
       report analyses (dom B ∖ dom C) (dom C ∖ dom B))
      (out ++ [(Stdout, MsgBanner baseline_file current_file)]).
Proof.
  intros HB HC. unfold check_regressions.
  erewrite io_bind_ok by reflexivity.
  erewrite io_bind_ok by (by apply loads_ok).
  erewrite io_bind_ok by (by apply loads_ok).
  reflexivity.
Qed.

(** *** Printing the report *)

Lemma as_float_formattable x : formattable x → ∃ f, Py.as_float x = Ok f.
Proof.
  destruct x as [z | f]; simpl; [| by eexists]. intros Hz.
  unfold Py.int_to_float, Py.overflow_threshold.
  destruct (Z.ltb_spec (Z.abs z) (2 ^ 1024 - 2 ^ 970)); [by eexists | lia].
Qed.

Lemma as_float_unformattable x : ¬ formattable x → Py.as_float x = Raise OverflowError.
Proof.
  destruct x as [z | f]; simpl; [| done]. intros Hz.
  unfold Py.int_to_float, Py.overflow_threshold.
  by destruct (Z.ltb_spec (Z.abs z) (2 ^ 1024 - 2 ^ 970)).
Qed.

Lemma format_row_ok a : printable a → format_row a = Ok (MsgRow a).
Proof.
  intros (Hb & Hc & Hr). unfold format_row.
  destruct (as_float_formattable _ Hb) as [? ->].
  destruct (as_float_formattable _ Hc) as [? ->].
  by destruct (as_float_formattable _ Hr) as [? ->].
Qed.

Lemma format_row_raise a : ¬ printable a → format_row a = Raise OverflowError.
Proof.
  intros Hnot. unfold format_row.
  destruct (decide (formattable (baseline_ns a))) as [Hb | Hb];
    [| by rewrite (as_float_unformattable _ Hb)].
  destruct (as_float_formattable _ Hb) as [? ->]. rewrite bind_ok.
  destruct (decide (formattable (current_ns a))) as [Hc | Hc];
    [| by rewrite (as_float_unformattable _ Hc)].
  destruct (as_float_formattable _ Hc) as [? ->]. rewrite bind_ok.
  destruct (decide (formattable (regression_pct a))) as [Hr | Hr];
    [| by rewrite (as_float_unformattable _ Hr)].
  exfalso. by apply Hnot.
Qed.

Lemma print_rows_ok rows out :
  Forall printable rows →
  print_rows rows out = (Ok tt, out ++ ((fun a => (Stdout, MsgRow a)) <$> rows)).
Proof.
  intros Hrows. revert out.
  induction Hrows as [| a rows Ha _ IH]; intros out; simpl.
  - by rewrite app_nil_r.
  - erewrite io_bind_ok by (unfold lift; by rewrite (format_row_ok a Ha)).
    erewrite io_bind_ok by reflexivity. rewrite IH. by rewrite <- app_assoc.
Qed.

Lemma print_rows_raise rows out :
  ¬ Forall printable rows → ∃ out', print_rows rows out = (Raise OverflowError, out').
Proof.
  revert out. induction rows as [| a rows IH]; intros out Hnot; simpl.
  - exfalso. apply Hnot. constructor.
  - destruct (decide (printable a)) as [Ha | Ha].
    + erewrite io_bind_ok by (unfold lift; by rewrite (format_row_ok a Ha)).
      erewrite io_bind_ok by reflexivity. apply IH.
      intros Hrows. apply Hnot. by constructor.
    + exists out. erewrite io_bind_raise; [done |].
      unfold lift. by rewrite (format_row_raise a Ha).
Qed.

Lemma print_group_ok lvl analyses out :
  Forall printable (bucket lvl analyses) →
  print_group lvl (bucket lvl analyses) out = (Ok tt, out ++ group_lines lvl analyses).
Proof.
  intros Hrows. unfold print_group, group_lines.
  destruct (bucket lvl analyses) as [| a rows] eqn:Hb; [by rewrite app_nil_r |].
  erewrite io_bind_ok by reflexivity. rewrite print_rows_ok by done.
  by rewrite <- app_assoc.
Qed.

Lemma print_group_raise lvl rows out :
  ¬ Forall printable rows → ∃ out', print_group lvl rows out = (Raise OverflowError, out').
Proof.
  intros Hnot. unfold print_group. destruct rows as [| a rows].
  - exfalso. apply Hnot. constructor.
  - erewrite io_bind_ok by reflexivity. by apply print_rows_raise.
Qed.

Lemma print_unless_empty_out {A} (xs : list A) m out :
  print_unless_empty xs m out =
    (Ok tt, out ++ match xs with [] => [] | _ => [(Stdout, m)] end).
Proof. destruct xs; simpl; [by rewrite app_nil_r | done]. Qed.

Lemma print_names_out (names : gset string) (m : list string → message) out :
  print_unless_empty (elements names) (m (sorted names)) out =
    (Ok tt, out ++ names_line names m).
Proof. rewrite print_unless_empty_out. unfold names_line. by destruct (elements _). Qed.

Lemma Forall_bucket (P : RegressionAnalysis → Prop) lvl analyses :
  Forall P analyses → Forall P (bucket lvl analyses).
Proof.
  rewrite !Forall_forall. intros H a Ha. apply H.
  unfold bucket in Ha. by apply list_elem_of_filter in Ha as [_ ?].
Qed.

Lemma Forall_buckets (P : RegressionAnalysis → Prop) analyses :
  (∀ lvl, Forall P (bucket lvl analyses)) → Forall P analyses.
Proof.
  intros H. apply Forall_forall. intros a Ha.
  specialize (H (level a)). rewrite Forall_forall in H. apply H.
  unfold bucket. by apply list_elem_of_filter.
Qed.

(** What [report] returns and prints when every line can be formatted:
    it passes exactly when no analysis is critical. *)
Lemma report_output analyses only_baseline only_current out :
  Forall printable analyses →
  report analyses only_baseline only_current out =
    (Ok (bool_decide (bucket CRITICAL analyses = [])),
     out ++ report_lines analyses only_baseline only_current).
Proof.
  intros Hp. unfold report, report_lines.
  erewrite io_bind_ok by reflexivity.
  do 4 (erewrite io_bind_ok by (apply print_group_ok; by apply Forall_bucket)).
  erewrite io_bind_ok by apply (print_names_out only_current MsgNewBenchmarks).
  erewrite io_bind_ok by apply (print_names_out only_baseline MsgRemovedBenchmarks).
  erewrite io_bind_ok by reflexivity.
  unfold verdict_line.
  destruct (bucket CRITICAL analyses) as [| a crit] eqn:Hc; simpl.
  - destruct (bucket WARNING analyses) as [| a warn] eqn:Hw; simpl;
      unfold mbind, io_bind, print, mret, io_ret; f_equal;
      rewrite <- !app_assoc; done.
  - unfold mbind, io_bind, print, mret, io_ret. f_equal. rewrite <- !app_assoc. done.
Qed.

(** When some line cannot be formatted the report stops there. *)
Lemma report_raise analyses only_baseline only_current out :
  ¬ Forall printable analyses →
  ∃ out', report analyses only_baseline only_current out = (Raise OverflowError, out').
Proof.
  intros Hnot. unfold report. erewrite io_bind_ok by reflexivity.
  destruct (decide (Forall printable (bucket IMPROVEMENT analyses))) as [H1 | H1];
    [| destruct (print_group_raise IMPROVEMENT _ (out ++ [(Stdout, MsgAnalysisHeader)]) H1)
         as [out' Hr]; exists out'; by erewrite io_bind_raise by exact Hr].
  erewrite io_bind_ok by (by apply print_group_ok).
  destruct (decide (Forall printable (bucket ACCEPTABLE analyses))) as [H2 | H2];
    [| match goal with |- context [print_group ACCEPTABLE ?rows ≫= _] =>
         match goal with |- context [(_ ≫= _) ?o] =>
           destruct (print_group_raise ACCEPTABLE rows o H2) as [out' Hr] end end;
       exists out'; by erewrite io_bind_raise by exact Hr].
  erewrite io_bind_ok by (by apply print_group_ok).
  destruct (decide (Forall printable (bucket WARNING analyses))) as [H3 | H3];
    [| match goal with |- context [(_ ≫= _) ?o] =>
         destruct (print_group_raise WARNING _ o H3) as [out' Hr] end;
       exists out'; by erewrite io_bind_raise by exact Hr].
  erewrite io_bind_ok by (by apply print_group_ok).
  destruct (decide (Forall printable (bucket CRITICAL analyses))) as [H4 | H4];
    [| match goal with |- context [(_ ≫= _) ?o] =>
         destruct (print_group_raise CRITICAL _ o H4) as [out' Hr] end;
       exists out'; by erewrite io_bind_raise by exact Hr].
  exfalso. apply Hnot. apply Forall_buckets. by intros [].
Qed.

Lemma loads_names fs filename B n r :
  loads fs filename B → B !! n = Some r → name r = n.
Proof.
  intros (data & _ & Hl). unfold load_document in Hl.
  by apply (load_entries_names ∅ (entries data) B).
Qed.

Lemma elem_of_common B C n :
  n ∈ common B C ↔ is_Some (B !! n) ∧ is_Some (C !! n).
Proof. unfold common, reconcile. simpl. rewrite elem_of_intersection, !elem_of_dom. done. Qed.

Lemma analyze_name_lookup B C n b c :
  B !! n = Some b → C !! n = Some c →
  analyze_name B C n = analyze_regression b c.
Proof. intros HB HC. unfold analyze_name, getitem. by rewrite HB, HC. Qed.

(** An analysis carries the name of the baseline result, which is the
    name it was looked up under. *)
Lemma analyze_name_name B C n a :
  (∀ n r, B !! n = Some r → name r = n) →
  analyze_name B C n = Ok a → a_name a = n.
Proof.
  intros Hinv. unfold analyze_name, getitem.
  destruct (B !! n) as [b |] eqn:Hb; simpl; [| done].
  destruct (C !! n) as [c |]; simpl; [| done].
  intros (_ & _ & ->)%analyze_regression_level. by apply Hinv.
Qed.

Lemma analyze_all_names B C names analyses :
  (∀ n r, B !! n = Some r → name r = n) →
  analyze_all B C names = Ok analyses → a_name <$> analyses = names.
Proof.
  intros Hinv Hall. apply mapM_ok_inv in Hall.
  induction Hall as [| n a names' analyses' Ha _ IH]; [done |].
  simpl. f_equal; [by eapply analyze_name_name | done].
Qed.

(** The analyses exist when every common benchmark has a baseline time
    other than zero and times in range; their lines can then be
    printed. *)
Lemma analyze_common_total B C :
  (∀ n b c, B !! n = Some b → C !! n = Some c →
            Py.is_zero (time_ns b) = false ∧ in_range (time_ns b) ∧ in_range (time_ns c)) →
  ∃ analyses, analyze_common B C (common B C) = Ok analyses.
Proof.
  intros Hok. unfold analyze_common, analyze_all.
  assert (Hnames : ∀ n, n ∈ sorted (common B C) → ∃ a, analyze_name B C n = Ok a).
  { intros n Hn%sorted_spec. apply elem_of_common in Hn as [[b Hb] [c Hc]].
    rewrite (analyze_name_lookup B C n b c Hb Hc).
    destruct (Hok n b c Hb Hc) as (Hz & Hrb & Hrc).
    unfold analyze_regression.
    destruct (percent_change_ok _ _ Hz Hrb Hrc) as [f ->]. by eexists. }
  induction (sorted (common B C)) as [| n names IH]; simpl; [by eexists |].
  destruct (Hnames n) as [a ->]; [by left |]. rewrite bind_ok.
  destruct IH as [analyses ->]; [intros n' Hn'; apply Hnames; by right |].
  by eexists.
Qed.

Lemma in_range_formattable x : in_range x → formattable x.
Proof.
  destruct x as [z | f]; simpl; [| done]. intros Hz.
  assert (2 ^ 1000 < 2 ^ 1024 - 2 ^ 970) by (vm_compute; reflexivity). lia.
Qed.

(** Under the same conditions every line of the report can be
    printed. *)
Lemma analyze_common_printable B C analyses :
  (∀ n b c, B !! n = Some b → C !! n = Some c →
            Py.is_zero (time_ns b) = false ∧ in_range (time_ns b) ∧ in_range (time_ns c)) →
  analyze_common B C (common B C) = Ok analyses →
  Forall printable analyses.
Proof.
  intros Hok Hall. unfold analyze_common, analyze_all in Hall.
  assert (Hin : ∀ n, n ∈ sorted (common B C) → n ∈ common B C)
    by (intros n; apply sorted_spec).
  remember (sorted (common B C)) as names eqn:Hnames. clear Hnames.
  apply mapM_ok_inv in Hall.
  induction Hall as [| n a names analyses' Ha _ IH]; [constructor |].
  constructor; [| apply IH; intros n' Hn'; apply Hin; by right].
  assert (Hn : n ∈ common B C) by (apply Hin; by left).
  apply elem_of_common in Hn as [[b Hb] [c Hc]].
  rewrite (analyze_name_lookup B C n b c Hb Hc) in Ha.
  destruct (Hok n b c Hb Hc) as (Hz & Hrb & Hrc).
  unfold analyze_regression in Ha.
  destruct (percent_change_ok _ _ Hz Hrb Hrc) as [f Hf].
  rewrite Hf, bind_ok in Ha. injection Ha as <-.
  split; [by apply in_range_formattable |]. split; [by apply in_range_formattable | done].
Qed.

(** C7. The list of analyses that [check_regressions] collects and
    hands to its report is in the order of the benchmark names: its
    names are the common names in ascending order, each once, and that
    is the only ordered arrangement of them, whatever the tiers and the
    percentages are. *)
Theorem analyses_ordered_by_name fs current_file baseline_file B C analyses out :
  loads fs baseline_file B → loads fs current_file C →
  common B C ≠ ∅ →
  analyze_common B C (common B C) = Ok analyses →
  check_regressions fs current_file baseline_file out =
    report analyses (dom B ∖ dom C) (dom C ∖ dom B)
      (out ++ [(Stdout, MsgBanner baseline_file current_file)]) ∧
  StronglySorted String.le (a_name <$> analyses) ∧
  NoDup (a_name <$> analyses) ∧
  (∀ n, n ∈ a_name <$> analyses ↔ n ∈ dom B ∧ n ∈ dom C) ∧
  (∀ l, Sorted String.le l → l ≡ₚ a_name <$> analyses → l = a_name <$> analyses).
Proof.
  intros HB HC Hcommon Hall. split.
  { rewrite (check_regressions_loaded fs current_file baseline_file B C out HB HC).
    rewrite decide_False by done.
    by erewrite io_bind_ok by (unfold lift; by rewrite Hall). }
  destruct (sorted_spec (common B C)) as (Hsorted & Hnodup & Hin).
  assert (Hnames : a_name <$> analyses = sorted (common B C))
    by (eapply analyze_all_names; [intros n r; by apply (loads_names fs baseline_file) | done]).
  rewrite Hnames. split; [done |]. split; [done |]. split.
  - intros n. by rewrite Hin, elem_of_common, !elem_of_dom.
  - intros l Hl Hperm. apply (Sorted_unique String.le); [done | | done].
    by apply StronglySorted_Sorted.
Qed.

(** C4. When the analyses are collected (and their lines can be
    printed, so that the report reaches its end), the run passes
    exactly when none of them is critical: the result is [False]
    exactly when some analysis has tier [critical], and warnings alone
    leave it [True]. *)
Theorem passes_iff_no_critical fs current_file baseline_file B C analyses out :
  loads fs baseline_file B → loads fs current_file C →
  common B C ≠ ∅ →
  analyze_common B C (common B C) = Ok analyses →
  Forall printable analyses →
  ∃ passed out',
    check_regressions fs current_file baseline_file out = (Ok passed, out') ∧
    (passed = true ↔ bucket CRITICAL analyses = []) ∧
    (passed = false ↔ ∃ a, a ∈ analyses ∧ level a = CRITICAL) ∧
    (bucket WARNING analyses ≠ [] → bucket CRITICAL analyses = [] → passed = true).
Proof.
  intros HB HC Hcommon Hall Hp.
  rewrite (check_regressions_loaded fs current_file baseline_file B C out HB HC).
  rewrite decide_False by done.
  erewrite io_bind_ok by (unfold lift; by rewrite Hall).
  rewrite report_output by done.
  eexists _, _. split; [reflexivity |].
  rewrite bool_decide_eq_true, bool_decide_eq_false. repeat split; try done.
  - intros Hne. destruct (bucket CRITICAL analyses) as [| a crit] eqn:Hcrit; [done |].
    exists a. assert (Ha : a ∈ bucket CRITICAL analyses) by (rewrite Hcrit; by left).
    unfold bucket in Ha. by apply list_elem_of_filter in Ha as [? ?].
  - intros (a & Ha & Hlvl) Hnil.
    by eapply (filter_nil_not_elem_of (fun a => level a = CRITICAL)).
Qed.

Lemma passes_iff_no_critical_witness :
  loads fs_warning "base.json" (loaded doc_base) ∧
  loads fs_warning "cur.json" (loaded doc_slower) ∧
  common (loaded doc_base) (loaded doc_slower) ≠ ∅ ∧
  analyze_common (loaded doc_base) (loaded doc_slower)
    (common (loaded doc_base) (loaded doc_slower)) =
    Ok (analysed doc_base doc_slower) ∧
  Forall printable (analysed doc_base doc_slower) ∧
  ∃ passed out',
    check_regressions fs_warning "cur.json" "base.json" [] = (Ok passed, out') ∧
    (passed = true ↔ bucket CRITICAL (analysed doc_base doc_slower) = []) ∧
    (passed = false ↔ ∃ a, a ∈ analysed doc_base doc_slower ∧ level a = CRITICAL) ∧
    (bucket WARNING (analysed doc_base doc_slower) ≠ [] →
     bucket CRITICAL (analysed doc_base doc_slower) = [] → passed = true).
Proof.
  assert (HB : loads fs_warning "base.json" (loaded doc_base))
    by (exists doc_base; split; reflexivity).
  assert (HC : loads fs_warning "cur.json" (loaded doc_slower))
    by (exists doc_slower; split; reflexivity).
  assert (Hcommon : common (loaded doc_base) (loaded doc_slower) ≠ ∅)
    by (apply (bool_decide_unpack _); vm_compute; exact I).
  assert (Hall : analyze_common (loaded doc_base) (loaded doc_slower)
                   (common (loaded doc_base) (loaded doc_slower)) =
                 Ok (analysed doc_base doc_slower))
    by (vm_compute; reflexivity).
  assert (Hp : Forall printable (analysed doc_base doc_slower))
    by (apply (bool_decide_unpack _); vm_compute; exact I).
  repeat (split; [assumption |]).
  exact (passes_iff_no_critical fs_warning "cur.json" "base.json" _ _ _ []
           HB HC Hcommon Hall Hp).
Defined.

(** A warning alone passes. *)
Example warning_passes :
  level <$> analysed doc_base doc_slower = [WARNING; ACCEPTABLE] ∧
  run_script fs_warning argv_ok =
    (0, [(Stdout, MsgBanner "base.json" "cur.json");
         (Stdout, MsgAnalysisHeader)] ++
        group_lines ACCEPTABLE (analysed doc_base doc_slower) ++
        group_lines WARNING (analysed doc_base doc_slower) ++
        [(Stdout, MsgSummary 0 1 1 0 2);
         (Stdout, MsgPassWithWarnings)]).
Proof. split; vm_compute; reflexivity. Qed.

(** Two equal int times too large for a float: the analysis succeeds
    with no change, the heading of its group is printed, and its line
    cannot be formatted; the run ends there with exit code 1 and no
    verdict. *)
Example huge_times_abort :
  level <$> analysed doc_huge doc_huge = [ACCEPTABLE] ∧
  run_script fs_huge argv_ok =
    (1, [(Stdout, MsgBanner "base.json" "cur.json");
         (Stdout, MsgAnalysisHeader);
         (Stdout, MsgGroupHeader ACCEPTABLE 1);
         (Stderr, MsgTraceback OverflowError)]).
Proof. split; vm_compute; reflexivity. Qed.

Lemma analyses_ordered_by_name_witness :
  loads fs_warning "base.json" (loaded doc_base) ∧
  loads fs_warning "cur.json" (loaded doc_slower) ∧
  common (loaded doc_base) (loaded doc_slower) ≠ ∅ ∧
  analyze_common (loaded doc_base) (loaded doc_slower)
    (common (loaded doc_base) (loaded doc_slower)) =
    Ok (analysed doc_base doc_slower) ∧
  check_regressions fs_warning "cur.json" "base.json" [] =
    report (analysed doc_base doc_slower)
      (dom (loaded doc_base) ∖ dom (loaded doc_slower))
      (dom (loaded doc_slower) ∖ dom (loaded doc_base))
      ([] ++ [(Stdout, MsgBanner "base.json" "cur.json")]) ∧
  StronglySorted String.le (a_name <$> analysed doc_base doc_slower) ∧
  NoDup (a_name <$> analysed doc_base doc_slower) ∧
  (∀ n, n ∈ a_name <$> analysed doc_base doc_slower ↔
        n ∈ dom (loaded doc_base) ∧ n ∈ dom (loaded doc_slower)) ∧
  (∀ l, Sorted String.le l → l ≡ₚ a_name <$> analysed doc_base doc_slower →
        l = a_name <$> analysed doc_base doc_slower).
Proof.
  assert (HB : loads fs_warning "base.json" (loaded doc_base))
    by (exists doc_base; split; reflexivity).
  assert (HC : loads fs_warning "cur.json" (loaded doc_slower))
    by (exists doc_slower; split; reflexivity).
  assert (Hcommon : common (loaded doc_base) (loaded doc_slower) ≠ ∅)
    by (apply (bool_decide_unpack _); vm_compute; exact I).
  assert (Hall : analyze_common (loaded doc_base) (loaded doc_slower)
                   (common (loaded doc_base) (loaded doc_slower)) =
                 Ok (analysed doc_base doc_slower))
    by (vm_compute; reflexivity).
  repeat (split; [assumption |]).
  exact (analyses_ordered_by_name fs_warning "cur.json" "base.json" _ _ _ []
           HB HC Hcommon Hall).
Defined.

(** The current document lists "B" before "A" and "A" has the larger
    change; the analyses still come out as "A", "B". *)
Example analysed_in_name_order : a_name <$> analysed doc_base doc_slower = ["A"; "B"].
Proof. vm_compute. reflexivity. Qed.

(** Without a common name the function prints the error and returns
    [False]. *)
Lemma no_common_returns_false fs current_file baseline_file B C out :
  loads fs baseline_file B → loads fs current_file C →
  common B C = ∅ →
  check_regressions fs current_file baseline_file out =
    (Ok false, out ++ [(Stdout, MsgBanner baseline_file current_file);
                       (Stdout, MsgNoCommonBenchmarks)]).
Proof.
  intros HB HC Hcommon.
  rewrite (check_regressions_loaded fs current_file baseline_file B C out HB HC).
  rewrite decide_True by done.
  erewrite io_bind_ok by reflexivity. by rewrite <- app_assoc.
Qed.

(** C2, on the code. With no benchmark in common the run stops after
    the error line, but [main] turns the [False] it gets into exit
    code 1, the code of a failed check, not 2. *)
Theorem no_common_benchmarks_exit_code :
  run_script fs_disjoint argv_ok =
    (1, [(Stdout, MsgBanner "base.json" "cur.json");
         (Stdout, MsgNoCommonBenchmarks)]).
Proof. vm_compute. reflexivity. Qed.

(** The operational errors of the loader do exit with code 2. *)
Example missing_file_exit_code :
  run_script fs_disjoint ["check_fst_regression.py"; "cur.json"; "nowhere.json"] =
    (2, [(Stdout, MsgBanner "nowhere.json" "cur.json");
         (Stderr, MsgFileNotFound "nowhere.json")]).
Proof. vm_compute. reflexivity. Qed.

Lemma run_script_uncaught fs script current_file baseline_file e out :
  check_regressions fs current_file baseline_file [] = (Raise e, out) →
  e = ZeroDivisionError ∨ e = OverflowError →
  run_script fs [script; current_file; baseline_file] =
    (1, out ++ [(Stderr, MsgTraceback e)]).
Proof.
  intros Hcheck He. unfold run_script, main.
  destruct (decide _) as [Hlen | _]; [by simpl in Hlen |]. simpl.
  erewrite io_bind_raise by exact Hcheck.
  by destruct He as [-> | ->].
Qed.

(** What the run does with a zero baseline time: [analyze_regression]
    raises [ZeroDivisionError] ([OverflowError] only when the current
    time is an int too large for a float), nothing catches it, and the
    process ends after the banner with a traceback and exit code 1. *)
Lemma zero_baseline_raises fs script current_file baseline_file B C n b c :
  loads fs baseline_file B → loads fs current_file C →
  B !! n = Some b → C !! n = Some c →
  Py.is_zero (time_ns b) = true →
  (in_range (time_ns c) → analyze_regression b c = Raise ZeroDivisionError) ∧
  ∃ e, (e = ZeroDivisionError ∨ e = OverflowError) ∧
    check_regressions fs current_file baseline_file [] =
      (Raise e, [(Stdout, MsgBanner baseline_file current_file)]) ∧
    run_script fs [script; current_file; baseline_file] =
      (1, [(Stdout, MsgBanner baseline_file current_file); (Stderr, MsgTraceback e)]).
Proof.
  intros HB HC Hb Hc Hz. split.
  { intros Hrc. unfold analyze_regression.
    by rewrite percent_change_zero by (done || by apply is_zero_in_range). }
  assert (Hn : n ∈ common B C) by (apply elem_of_common; by split; eexists).
  assert (Hcommon : common B C ≠ ∅) by set_solver.
  assert (Hraise : ∃ e, analyze_all B C (sorted (common B C)) = Raise e ∧
                        (e = ZeroDivisionError ∨ e = OverflowError)).
  { destruct (analyze_all B C (sorted (common B C))) as [analyses | e] eqn:Hall.
    - exfalso.
      assert (Hin : n ∈ sorted (common B C)) by by apply sorted_spec.
      destruct (mapM_ok_elem _ _ _ n Hall Hin) as [a Ha].
      rewrite (analyze_name_lookup B C n b c Hb Hc) in Ha.
      destruct (analyze_regression_zero b c Hz) as (e & He & _). congruence.
    - exists e. split; [done |].
      apply mapM_raise_inv in Hall as (n' & Hn' & Hraise).
      apply sorted_spec, elem_of_common in Hn' as [[b' Hb'] [c' Hc']].
      rewrite (analyze_name_lookup B C n' b' c' Hb' Hc') in Hraise.
      by eapply analyze_regression_raises. }
  destruct Hraise as (e & Hall & He). exists e. split; [done |].
  assert (Hcheck : check_regressions fs current_file baseline_file [] =
                     (Raise e, [(Stdout, MsgBanner baseline_file current_file)])).
  { rewrite (check_regressions_loaded fs current_file baseline_file B C [] HB HC).
    rewrite decide_False by done.
    erewrite io_bind_raise; [done |]. unfold lift, analyze_common. by rewrite Hall. }
  split; [done |].
  by rewrite (run_script_uncaught fs script current_file baseline_file e _ Hcheck He).
Qed.

(** C1, on the code. Scenario 4 of the specification (baseline 0 ns,
    current 10 ns, a common benchmark): the benchmark is not reported
    as undefined and the run does not go on. The division raises
    [ZeroDivisionError], nothing catches it, [check_regressions]
    returns no verdict, and the process ends after the banner with a
    traceback and exit code 1. *)
Theorem zero_baseline_not_recovered :
  check_regressions fs_zero_baseline "cur.json" "base.json" [] =
    (Raise ZeroDivisionError, [(Stdout, MsgBanner "base.json" "cur.json")]) ∧
  (¬ ∃ passed out,
     check_regressions fs_zero_baseline "cur.json" "base.json" [] = (Ok passed, out)) ∧
  run_script fs_zero_baseline argv_ok =
    (1, [(Stdout, MsgBanner "base.json" "cur.json");
         (Stderr, MsgTraceback ZeroDivisionError)]).
Proof.
  split; [vm_compute; reflexivity |]. split; [| vm_compute; reflexivity].
  intros (passed & out & H). vm_compute in H. discriminate H.
Qed.

End Verdict.

(** ** main *)

Section Main.

(** C9, as the code has it. With an argument count other than two,
    the usage text is printed with plain [print], that is to standard
    output, nothing is written to the error stream, and the process
    exits with code 2. *)
Theorem usage_on_argument_mismatch (fs : filesystem) (argv : list string) :
  length argv ≠ 3%nat →
  run_script fs argv = (2, [(Stdout, MsgUsage)]).
Proof.
  intros Hlen. unfold run_script, main. by rewrite decide_True.
Qed.

Lemma usage_on_argument_mismatch_witness :
  length ["check_fst_regression.py"; "cur.json"] ≠ 3%nat ∧
  run_script fs_scenario3 ["check_fst_regression.py"; "cur.json"] =
    (2, [(Stdout, MsgUsage)]).
Proof.
  assert (Hlen : length ["check_fst_regression.py"; "cur.json"] ≠ 3%nat)
    by (simpl; lia).
  split; [exact Hlen |].
  exact (usage_on_argument_mismatch fs_scenario3 _ Hlen).
Defined.

(** C9 fails: called with one argument, the script writes the usage
    text to standard output and nothing to the error stream. *)
Lemma usage_not_on_error_stream :
  run_script fs_scenario3 ["check_fst_regression.py"; "cur.json"] =
    (2, [(Stdout, MsgUsage)]) ∧
  ¬ ∃ m, (Stderr, m) ∈ (run_script fs_scenario3 ["check_fst_regression.py"; "cur.json"]).2.
Proof.
  split; [reflexivity |]. intros (m & Hm). simpl in Hm.
  apply list_elem_of_singleton in Hm. discriminate Hm.
Qed.

End Main.


(** * Further properties *)

(** ** The loader *)

Section LoaderMore.

Implicit Types (b : benchmark) (bs : list benchmark).
Implicit Types (results : gmap string BenchmarkResult).

Lemma record_of_named b n :
  j_name b = Some n → ∃ r, record_of b = Ok r ∧ name r = n.
Proof.
  intros Hn. unfold record_of, getitem_name. rewrite Hn, bind_ok.
  destruct (convert_time_ok (get (j_time_unit b) "ns") (raw_time b)) as [t ->].
  rewrite bind_ok. by eexists.
Qed.

Lemma load_entry_record results b :
  load_entry results b = r ← record_of b; Ok (<[name r := r]> results).
Proof.
  unfold load_entry, record_of.
  destruct (getitem_name b) as [n | e]; [| done]. rewrite !bind_ok.
  by destruct (convert_time _ _).
Qed.

Lemma load_entries_raise_inv results bs e :
  load_entries results bs = Raise e → e = KeyError "name".
Proof.
  revert results. induction bs as [| b bs IH]; intros results; simpl; [done |].
  destruct (j_name b) as [n |] eqn:Hn.
  - destruct (load_entry_named results b n Hn) as (r & -> & _). rewrite bind_ok. apply IH.
  - rewrite load_entry_nameless by done. by intros [= <-].
Qed.

Lemma last_named_name n bs b : last_named n bs = Some b → j_name b = Some n ∧ b ∈ bs.
Proof.
  induction bs as [| b' bs IH]; simpl; [done |].
  destruct (last_named n bs) as [b'' |].
  - intros [= <-]. destruct IH as [? ?]; [done |]. split; [done | by right].
  - case_decide; [| done]. intros [= <-]. split; [done | by left].
Qed.

Lemma last_named_None n bs :
  last_named n bs = None ↔ ∀ b, b ∈ bs → j_name b ≠ Some n.
Proof.
  induction bs as [| b' bs IH]; simpl.
  - split; [| done]. intros _ b Hb. by apply elem_of_nil in Hb.
  - destruct (last_named n bs) as [b'' |] eqn:Hl.
    + split; [done |]. intros Hall. exfalso.
      apply last_named_name in Hl as [Hn Hin]. apply (Hall b''); [by right | done].
    + case_decide as Hd.
      * split; [done |]. intros Hall. exfalso. apply (Hall b'); [by left | done].
      * split; [| done]. intros _ b Hb.
        apply elem_of_cons in Hb as [-> | Hb]; [done |]. by apply IH.
Qed.

Lemma load_entries_last_named results bs :
  Forall named bs →
  ∃ results',
    load_entries results bs = Ok results' ∧
    ∀ n,
      match last_named n bs with
      | Some b => ∃ r, record_of b = Ok r ∧ results' !! n = Some r
      | None => results' !! n = results !! n
      end.
Proof.
  intros Hbs. revert results.
  induction Hbs as [| b bs [nb Hnb] _ IH]; intros results; simpl.
  { exists results. split; [done |]. by intros n. }
  rewrite load_entry_record.
  destruct (record_of_named b nb Hnb) as (rb & Hrb & Hname). rewrite Hrb, !bind_ok, Hname.
  destruct (IH (<[nb := rb]> results)) as (results' & -> & Hlook).
  exists results'. split; [done |]. intros n. specialize (Hlook n).
  destruct (last_named n bs) as [b' |]; [done |].
  case_decide as Hd.
  - assert (nb = n) as -> by congruence.
    exists rb. split; [done |]. by rewrite Hlook, lookup_insert_eq.
  - rewrite Hlook. apply lookup_insert_ne. congruence.
Qed.

Lemma load_document_lookup (data : document) :
  Forall named (entries data) →
  ∃ results,
    load_document data = Ok results ∧
    ∀ n,
      match last_named n (entries data) with
      | Some b => ∃ r, record_of b = Ok r ∧ results !! n = Some r
      | None => results !! n = None
      end.
Proof.
  intros Hall. unfold load_document.
  destruct (load_entries_last_named ∅ (entries data) Hall) as (results & -> & Hlook).
  exists results. split; [done |]. intros n. specialize (Hlook n).
  destruct (last_named n (entries data)); [done |]. by rewrite Hlook.
Qed.

(** X1. The mapping the loader returns holds, under every name that
    occurs in the document, the record of the last entry with that
    name (name, converted time, throughput and label with their
    defaults), and nothing under any other name. *)
Theorem load_document_last_wins (data : document) :
  Forall named (entries data) →
  ∃ results,
    load_document data = Ok results ∧
    ∀ n,
      match last_named n (entries data) with
      | Some b => ∃ r, record_of b = Ok r ∧ results !! n = Some r
      | None => results !! n = None
      end.
Proof. apply load_document_lookup. Qed.

Lemma load_document_last_wins_witness :
  Forall named (entries doc_twice) ∧
  ∃ results,
    load_document doc_twice = Ok results ∧
    ∀ n,
      match last_named n (entries doc_twice) with
      | Some b => ∃ r, record_of b = Ok r ∧ results !! n = Some r
      | None => results !! n = None
      end.
Proof.
  assert (Hall : Forall named (entries doc_twice)) by (repeat constructor; by eexists).
  split; [exact Hall |]. exact (load_document_last_wins doc_twice Hall).
Defined.

Example doc_twice_loaded :
  last_named "A" (entries doc_twice) = Some (entry_in "A" (Py.Int 3) "ms") ∧
  (results ← load_document doc_twice; Ok (time_ns <$> results !! "A", size results)) =
    Ok (Some (Py.Int 3000000), 2%nat).
Proof. split; vm_compute; reflexivity. Qed.

Lemma last_named_unique n bs b :
  NoDup (j_name <$> bs) → b ∈ bs → j_name b = Some n → last_named n bs = Some b.
Proof.
  intros Hnd Hb Hn. induction bs as [| b' bs IH]; [by apply elem_of_nil in Hb |].
  simpl in *. apply NoDup_cons in Hnd as [Hnotin Hnd].
  apply elem_of_cons in Hb as [<- | Hb].
  - assert (Hl : last_named n bs = None).
    { apply last_named_None. intros b'' Hb'' Hn''. apply Hnotin.
      rewrite Hn, <- Hn''. by apply list_elem_of_fmap_2. }
    rewrite Hl. by rewrite decide_True.
  - by rewrite IH.
Qed.

Lemma last_named_perm n bs bs' :
  NoDup (j_name <$> bs) → bs ≡ₚ bs' → last_named n bs = last_named n bs'.
Proof.
  intros Hnd Hperm.
  assert (Hnd' : NoDup (j_name <$> bs')) by by rewrite <- Hperm.
  destruct (last_named n bs) as [b |] eqn:Hl.
  - apply last_named_name in Hl as [Hn Hb]. symmetry.
    apply last_named_unique; [done | by rewrite <- Hperm | done].
  - symmetry. apply last_named_None. intros b Hb.
    rewrite <- Hperm in Hb. revert b Hb. by apply last_named_None.
Qed.

(** X2. When no name occurs twice, the order of the entries in a
    document does not matter: a document with the same entries in
    another order loads to the same mapping, or fails in the same
    way. *)
Theorem load_document_order_irrelevant (data data' : document) :
  NoDup (j_name <$> entries data) →
  entries data ≡ₚ entries data' →
  load_document data = load_document data'.
Proof.
  intros Hnd Hperm.
  destruct (decide (Forall named (entries data))) as [Hall | Hsome].
  - assert (Hall' : Forall named (entries data')) by by rewrite <- Hperm.
    destruct (load_document_lookup data Hall) as (results & -> & Hlook).
    destruct (load_document_lookup data' Hall') as (results' & -> & Hlook').
    f_equal. apply map_eq. intros n. specialize (Hlook n). specialize (Hlook' n).
    rewrite <- (last_named_perm n _ _ Hnd Hperm) in Hlook'.
    destruct (last_named n (entries data)) as [b |]; [| congruence].
    destruct Hlook as (r & Hr & ->), Hlook' as (r' & Hr' & ->). congruence.
  - apply not_Forall_Exists in Hsome; [| apply _].
    apply Exists_exists in Hsome as (b & Hb & Hn).
    assert (Hnone : j_name b = None).
    { destruct (j_name b) as [n0 |] eqn:E; [| done].
      exfalso. apply Hn. unfold named. rewrite E. by eexists. }
    unfold load_document.
    rewrite !load_entries_nameless; [done | exists b | exists b]; split; try done.
    by rewrite <- Hperm.
Qed.

Lemma load_document_order_irrelevant_witness :
  NoDup (j_name <$> entries doc_units) ∧
  entries doc_units ≡ₚ entries doc_reordered ∧
  load_document doc_units = load_document doc_reordered.
Proof.
  assert (Hnd : NoDup (j_name <$> entries doc_units))
    by (apply (bool_decide_unpack _); vm_compute; exact I).
  assert (Hperm : entries doc_units ≡ₚ entries doc_reordered).
  { apply (Permutation_trans
             (l' := [entry "c" (Py.Int 7); entry_in "d" (Py.Int 3) "s"] ++
                    [entry_in "a" (Py.Int 5) "us"; entry_in "b" (Py.Int 2) "ms"])).
    - apply (Permutation_app_comm
               [entry_in "a" (Py.Int 5) "us"; entry_in "b" (Py.Int 2) "ms"]).
    - apply (Permutation_app_tail
               [entry_in "a" (Py.Int 5) "us"; entry_in "b" (Py.Int 2) "ms"]
               (perm_swap (entry_in "d" (Py.Int 3) "s") (entry "c" (Py.Int 7)) [])). }
  split; [exact Hnd |]. split; [exact Hperm |].
  exact (load_document_order_irrelevant doc_units doc_reordered Hnd Hperm).
Defined.

Lemma nameless_entry_raises_aux (fs : filesystem) (filename : string) (data : document)
    (out : output) :
  fs filename = FileJSON data →
  (∃ b, b ∈ entries data ∧ j_name b = None) →
  load_benchmark_results fs filename out = (Raise (KeyError "name"), out).
Proof.
  intros Hfile Hb. unfold load_benchmark_results. rewrite Hfile.
  unfold lift, load_document. by rewrite load_entries_nameless.
Qed.

End LoaderMore.

(** ** The report *)

Section ReportMore.

Implicit Types (B C : gmap string BenchmarkResult).
Implicit Types (analyses : list RegressionAnalysis).

(** [main] with two arguments: the exit code for each way
    [check_regressions] can end. *)
Lemma run_script_two_arguments fs script current_file baseline_file :
  run_script fs [script; current_file; baseline_file] =
    match check_regressions fs current_file baseline_file [] with
    | (Ok passed, out) => (if passed : bool then 0 else 1, out)
    | (Raise (SystemExit code), out) => (code, out)
    | (Raise e, out) => (1, out ++ [(Stderr, MsgTraceback e)])
    end.
Proof.
  unfold run_script, main.
  destruct (decide _) as [Hlen | _]; [by simpl in Hlen |]. simpl.
  unfold mbind at 1, io_bind at 1.
  destruct (check_regressions fs current_file baseline_file []) as [[passed | e] out];
    [by destruct passed | done].
Qed.

(** A run that analyses every common benchmark and can print every
    line: the banner, then the report, and the exit code of the
    verdict. *)
Lemma run_script_report fs script current_file baseline_file B C analyses :
  loads fs baseline_file B → loads fs current_file C →
  common B C ≠ ∅ →
  analyze_common B C (common B C) = Ok analyses →
  Forall printable analyses →
  run_script fs [script; current_file; baseline_file] =
    (if bool_decide (bucket CRITICAL analyses = []) then 0 else 1,
     (Stdout, MsgBanner baseline_file current_file) ::
       report_lines analyses (dom B ∖ dom C) (dom C ∖ dom B)).
Proof.
  intros HB HC Hcommon Hall Hp. rewrite run_script_two_arguments.
  rewrite (check_regressions_loaded fs current_file baseline_file B C [] HB HC).
  rewrite decide_False by done.
  erewrite io_bind_ok by (unfold lift; by rewrite Hall).
  by rewrite report_output by done.
Qed.

Lemma analyze_common_names fs baseline_file B C analyses :
  loads fs baseline_file B →
  analyze_common B C (common B C) = Ok analyses →
  a_name <$> analyses = sorted (common B C).
Proof.
  intros HB Hall. eapply analyze_all_names; [| exact Hall].
  intros n r. by apply (loads_names fs baseline_file).
Qed.

Lemma verdict_line_cases analyses :
  verdict_line analyses = MsgFail ∨ verdict_line analyses = MsgPassWithWarnings ∨
  verdict_line analyses = MsgPass.
Proof.
  unfold verdict_line.
  destruct (bucket CRITICAL analyses), (bucket WARNING analyses); auto.
Qed.

Lemma elem_of_bucket a lvl analyses :
  a ∈ bucket lvl analyses ↔ a ∈ analyses ∧ level a = lvl.
Proof. unfold bucket. rewrite list_elem_of_filter. tauto. Qed.

Lemma elem_of_group_lines e lvl analyses :
  e ∈ group_lines lvl analyses ↔
  (e = (Stdout, MsgGroupHeader lvl (length (bucket lvl analyses))) ∧
   bucket lvl analyses ≠ []) ∨
  (∃ a, e = (Stdout, MsgRow a) ∧ a ∈ bucket lvl analyses).
Proof.
  unfold group_lines. destruct (bucket lvl analyses) as [| a rows] eqn:Hb.
  - split; [by intros ?%elem_of_nil |].
    intros [[_ ?] | (a & _ & Ha)]; [done | by apply elem_of_nil in Ha].
  - rewrite elem_of_cons, list_elem_of_fmap. split.
    + intros [-> | (a' & -> & Ha')]; [by left | right; by exists a'].
    + intros [[-> _] | (a' & -> & Ha')]; [by left | right; by exists a'].
Qed.

Lemma elem_of_names_line e (names : gset string) (m : list string → message) :
  e ∈ names_line names m ↔ e = (Stdout, m (sorted names)) ∧ names ≠ ∅.
Proof.
  unfold names_line. destruct (elements names) as [| n l] eqn:Hel.
  - apply elements_empty_inv in Hel. apply leibniz_equiv in Hel.
    split; [by intros ?%elem_of_nil | by intros [_ ?]].
  - rewrite list_elem_of_singleton. split; [| by intros [? _]].
    intros ->. split; [done |]. intros ->. by rewrite elements_empty in Hel.
Qed.

(** The lines of a report, by kind. *)
Lemma elem_of_report_lines e analyses (only_baseline only_current : gset string) :
  e ∈ report_lines analyses only_baseline only_current ↔
    e = (Stdout, MsgAnalysisHeader) ∨
    (∃ lvl, e ∈ group_lines lvl analyses) ∨
    e ∈ names_line only_current MsgNewBenchmarks ∨
    e ∈ names_line only_baseline MsgRemovedBenchmarks ∨
    e = (Stdout, MsgSummary (length (bucket IMPROVEMENT analyses))
                   (length (bucket ACCEPTABLE analyses))
                   (length (bucket WARNING analyses))
                   (length (bucket CRITICAL analyses)) (length analyses)) ∨
    e = (Stdout, verdict_line analyses).
Proof.
  unfold report_lines. rewrite !elem_of_app, !elem_of_cons, !elem_of_nil. split.
  - intros [[H | []] | [H | [H | [H | [H | [H | [H | [H | [H | []]]]]]]]]]; eauto 10.
  - intros [H | [[[] H] | [H | [H | [H | H]]]]]; tauto.
Qed.

Lemma printed_rows_app (out1 out2 : output) :
  printed_rows (out1 ++ out2) = printed_rows out1 ++ printed_rows out2.
Proof. apply omap_app. Qed.

Lemma printed_rows_rows (rows : list RegressionAnalysis) :
  printed_rows ((fun a => (Stdout, MsgRow a)) <$> rows) = rows.
Proof.
  induction rows as [| a rows IH]; [done |].
  change (a :: printed_rows ((fun a => (Stdout, MsgRow a)) <$> rows) = a :: rows).
  by rewrite IH.
Qed.

Lemma printed_rows_group_lines lvl analyses :
  printed_rows (group_lines lvl analyses) = bucket lvl analyses.
Proof.
  unfold group_lines. destruct (bucket lvl analyses) as [| a rows]; [done |].
  change (printed_rows ((fun a => (Stdout, MsgRow a)) <$> (a :: rows)) = a :: rows).
  apply printed_rows_rows.
Qed.

Lemma printed_rows_names_line (names : gset string) (m : list string → message) :
  (∀ l, match m l with MsgRow _ => False | _ => True end) →
  printed_rows (names_line names m) = [].
Proof.
  intros Hm. unfold names_line. destruct (elements names); [done |].
  unfold printed_rows. simpl. specialize (Hm (sorted names)).
  by destruct (m (sorted names)).
Qed.

Lemma printed_rows_report_lines analyses (only_baseline only_current : gset string) :
  printed_rows (report_lines analyses only_baseline only_current) =
    bucket IMPROVEMENT analyses ++ bucket ACCEPTABLE analyses ++
    bucket WARNING analyses ++ bucket CRITICAL analyses.
Proof.
  unfold report_lines.
  rewrite !printed_rows_app, !printed_rows_group_lines.
  rewrite !printed_rows_names_line by done.
  assert (Hend : ∀ m, printed_rows [(Stdout, m); (Stdout, verdict_line analyses)] =
                      printed_rows [(Stdout, m)]).
  { intros m. unfold printed_rows. simpl.
    by destruct (verdict_line_cases analyses) as [-> | [-> | ->]]. }
  rewrite Hend. unfold printed_rows at 1 2. simpl. by rewrite !app_nil_r.
Qed.

Lemma buckets_Permutation analyses :
  bucket IMPROVEMENT analyses ++ bucket ACCEPTABLE analyses ++
  bucket WARNING analyses ++ bucket CRITICAL analyses ≡ₚ analyses.
Proof.
  unfold bucket. induction analyses as [| a analyses IH]; [done |].
  rewrite !filter_cons. destruct (level a); simpl.
  - by rewrite IH.
  - rewrite <- Permutation_middle. by rewrite IH.
  - rewrite app_assoc, <- Permutation_middle, <- app_assoc. by rewrite IH.
  - rewrite !app_assoc, <- Permutation_middle, <- !app_assoc. by rewrite IH.
Qed.

Lemma bucket_lengths analyses :
  (length (bucket IMPROVEMENT analyses) + length (bucket ACCEPTABLE analyses) +
   length (bucket WARNING analyses) + length (bucket CRITICAL analyses))%nat =
  length analyses.
Proof.
  unfold bucket. induction analyses as [| a analyses IH]; [done |].
  rewrite !filter_cons. destruct (level a); simpl; lia.
Qed.

Lemma bucket_names_sorted lvl analyses :
  StronglySorted String.le (a_name <$> analyses) →
  StronglySorted String.le (a_name <$> bucket lvl analyses).
Proof.
  unfold bucket. induction analyses as [| a analyses IH]; [done |].
  rewrite fmap_cons. intros Hs. apply StronglySorted_inv in Hs as [Hs Hall].
  rewrite filter_cons. case_decide; [| by apply IH].
  rewrite fmap_cons. constructor; [by apply IH |].
  rewrite Forall_forall in Hall. apply Forall_forall. intros n Hn.
  apply list_elem_of_fmap in Hn as (a' & -> & Ha').
  apply list_elem_of_filter in Ha' as [_ Ha'].
  apply Hall. by apply list_elem_of_fmap_2.
Qed.

(** The group of a tier that has analyses is a block of the report. *)
Lemma group_lines_block lvl analyses only_baseline only_current :
  ∃ before after,
    report_lines analyses only_baseline only_current =
      before ++ group_lines lvl analyses ++ after.
Proof.
  unfold report_lines. destruct lvl.
  - eexists [(Stdout, MsgAnalysisHeader)], _. reflexivity.
  - eexists ([(Stdout, MsgAnalysisHeader)] ++ group_lines IMPROVEMENT analyses), _.
    by rewrite <- !app_assoc.
  - eexists ([(Stdout, MsgAnalysisHeader)] ++ group_lines IMPROVEMENT analyses ++
             group_lines ACCEPTABLE analyses), _.
    by rewrite <- !app_assoc.
  - eexists ([(Stdout, MsgAnalysisHeader)] ++ group_lines IMPROVEMENT analyses ++
             group_lines ACCEPTABLE analyses ++ group_lines WARNING analyses), _.
    by rewrite <- !app_assoc.
Qed.

(** X8. The tier groups of a run that reaches its end (every line can
    be formatted): a heading is printed exactly for the tiers that have
    analyses, with their number; directly below it come the lines of
    all analyses of that tier and only those, in the order of the
    analyses, which is the order of the names; and every analysis has
    exactly one line in the output. *)
Theorem report_groups fs script current_file baseline_file B C analyses :
  loads fs baseline_file B → loads fs current_file C →
  common B C ≠ ∅ →
  analyze_common B C (common B C) = Ok analyses →
  Forall printable analyses →
  let out := (run_script fs [script; current_file; baseline_file]).2 in
  (∀ s lvl k, (s, MsgGroupHeader lvl k) ∈ out ↔
     s = Stdout ∧ bucket lvl analyses ≠ [] ∧ k = length (bucket lvl analyses)) ∧
  (∀ lvl, bucket lvl analyses ≠ [] →
     ∃ before after,
       out = before ++
             (Stdout, MsgGroupHeader lvl (length (bucket lvl analyses))) ::
             ((fun a => (Stdout, MsgRow a)) <$> bucket lvl analyses) ++ after) ∧
  printed_rows out =
    bucket IMPROVEMENT analyses ++ bucket ACCEPTABLE analyses ++
    bucket WARNING analyses ++ bucket CRITICAL analyses ∧
  (∀ lvl a, a ∈ bucket lvl analyses ↔ a ∈ analyses ∧ level a = lvl) ∧
  (∀ lvl, sublist (bucket lvl analyses) analyses ∧
          StronglySorted String.le (a_name <$> bucket lvl analyses)) ∧
  printed_rows out ≡ₚ analyses ∧ NoDup (printed_rows out).
Proof.
  intros HB HC Hcommon Hall Hp out. subst out.
  rewrite (run_script_report fs script current_file baseline_file B C analyses)
    by done.
  cbn [snd].
  pose proof (analyze_common_names fs baseline_file B C analyses HB Hall) as Hnames.
  destruct (sorted_spec (common B C)) as (Hsorted & Hnodup & _).
  rewrite <- Hnames in Hsorted, Hnodup.
  assert (Hrows : printed_rows
            ((Stdout, MsgBanner baseline_file current_file) ::
               report_lines analyses (dom B ∖ dom C) (dom C ∖ dom B)) =
          bucket IMPROVEMENT analyses ++ bucket ACCEPTABLE analyses ++
          bucket WARNING analyses ++ bucket CRITICAL analyses)
    by apply printed_rows_report_lines.
  split; [| split; [| split; [| split; [| split; [| split]]]]].
  - intros s lvl k. rewrite elem_of_cons, elem_of_report_lines. split.
    + intros [Heq | [Heq | [[lvl' Hg] | [Hn | [Hn | [Heq | Heq]]]]]];
        try discriminate Heq.
      * apply elem_of_group_lines in Hg as [[Heq Hne] | (a & Heq & _)];
          [| discriminate Heq].
        by injection Heq as -> -> ->.
      * apply elem_of_names_line in Hn as [Heq _]. discriminate Heq.
      * apply elem_of_names_line in Hn as [Heq _]. discriminate Heq.
      * injection Heq as _ Hv.
        destruct (verdict_line_cases analyses) as [Hc | [Hc | Hc]];
          rewrite Hc in Hv; discriminate Hv.
    + intros (-> & Hne & ->). right.
      right. left. exists lvl. apply elem_of_group_lines. by left.
  - intros lvl Hne.
    destruct (group_lines_block lvl analyses (dom B ∖ dom C) (dom C ∖ dom B))
      as (before & after & ->).
    exists ((Stdout, MsgBanner baseline_file current_file) :: before), after.
    unfold group_lines. by destruct (bucket lvl analyses).
  - exact Hrows.
  - intros lvl a. apply elem_of_bucket.
  - intros lvl. split; [apply sublist_filter | by apply bucket_names_sorted].
  - rewrite Hrows. apply buckets_Permutation.
  - rewrite Hrows, buckets_Permutation. by apply (NoDup_fmap_1 a_name).
Qed.

Lemma report_groups_witness :
  loads fs_tiers "base.json" (loaded doc_tiers_base) ∧
  loads fs_tiers "cur.json" (loaded doc_tiers_cur) ∧
  common (loaded doc_tiers_base) (loaded doc_tiers_cur) ≠ ∅ ∧
  analyze_common (loaded doc_tiers_base) (loaded doc_tiers_cur)
    (common (loaded doc_tiers_base) (loaded doc_tiers_cur)) =
    Ok (analysed doc_tiers_base doc_tiers_cur) ∧
  Forall printable (analysed doc_tiers_base doc_tiers_cur) ∧
  let analyses := analysed doc_tiers_base doc_tiers_cur in
  let out := (run_script fs_tiers argv_ok).2 in
  (∀ s lvl k, (s, MsgGroupHeader lvl k) ∈ out ↔
     s = Stdout ∧ bucket lvl analyses ≠ [] ∧ k = length (bucket lvl analyses)) ∧
  (∀ lvl, bucket lvl analyses ≠ [] →
     ∃ before after,
       out = before ++
             (Stdout, MsgGroupHeader lvl (length (bucket lvl analyses))) ::
             ((fun a => (Stdout, MsgRow a)) <$> bucket lvl analyses) ++ after) ∧
  printed_rows out =
    bucket IMPROVEMENT analyses ++ bucket ACCEPTABLE analyses ++
    bucket WARNING analyses ++ bucket CRITICAL analyses ∧
  (∀ lvl a, a ∈ bucket lvl analyses ↔ a ∈ analyses ∧ level a = lvl) ∧
  (∀ lvl, sublist (bucket lvl analyses) analyses ∧
          StronglySorted String.le (a_name <$> bucket lvl analyses)) ∧
  printed_rows out ≡ₚ analyses ∧ NoDup (printed_rows out).
Proof.
  assert (HB : loads fs_tiers "base.json" (loaded doc_tiers_base))
    by (exists doc_tiers_base; split; reflexivity).
  assert (HC : loads fs_tiers "cur.json" (loaded doc_tiers_cur))
    by (exists doc_tiers_cur; split; reflexivity).
  assert (Hcommon : common (loaded doc_tiers_base) (loaded doc_tiers_cur) ≠ ∅)
    by (apply (bool_decide_unpack _); vm_compute; exact I).
  assert (Hall : analyze_common (loaded doc_tiers_base) (loaded doc_tiers_cur)
                   (common (loaded doc_tiers_base) (loaded doc_tiers_cur)) =
                 Ok (analysed doc_tiers_base doc_tiers_cur))
    by (vm_compute; reflexivity).
  assert (Hp : Forall printable (analysed doc_tiers_base doc_tiers_cur))
    by (apply (bool_decide_unpack _); vm_compute; exact I).
  repeat (split; [assumption |]).
  exact (report_groups fs_tiers "check_fst_regression.py" "cur.json" "base.json"
           _ _ _ HB HC Hcommon Hall Hp).
Defined.

(** X9. The summary of a run that reaches its end is printed once, as
    the last line but one; its four tier counts are the sizes of the
    four groups and add up to its total, the number of analyses, which
    is the number of common benchmarks: no analysis is counted twice or
    left out. *)
Theorem summary_counts_add_up fs script current_file baseline_file B C analyses :
  loads fs baseline_file B → loads fs current_file C →
  common B C ≠ ∅ →
  analyze_common B C (common B C) = Ok analyses →
  Forall printable analyses →
  let out := (run_script fs [script; current_file; baseline_file]).2 in
  ∃ before closing,
    out = before ++
          [(Stdout, MsgSummary (length (bucket IMPROVEMENT analyses))
                      (length (bucket ACCEPTABLE analyses))
                      (length (bucket WARNING analyses))
                      (length (bucket CRITICAL analyses)) (length analyses));
           (Stdout, closing)] ∧
    (∀ s i a w c t, (s, MsgSummary i a w c t) ∉ before) ∧
    (∀ i a w c t, closing ≠ MsgSummary i a w c t) ∧
    (length (bucket IMPROVEMENT analyses) + length (bucket ACCEPTABLE analyses) +
     length (bucket WARNING analyses) + length (bucket CRITICAL analyses))%nat =
      length analyses ∧
    length analyses = size (common B C).
Proof.
  intros HB HC Hcommon Hall Hp out. subst out.
  rewrite (run_script_report fs script current_file baseline_file B C analyses)
    by done.
  cbn [snd].
  exists ((Stdout, MsgBanner baseline_file current_file) ::
          [(Stdout, MsgAnalysisHeader)] ++
          group_lines IMPROVEMENT analyses ++ group_lines ACCEPTABLE analyses ++
          group_lines WARNING analyses ++ group_lines CRITICAL analyses ++
          names_line (dom C ∖ dom B) MsgNewBenchmarks ++
          names_line (dom B ∖ dom C) MsgRemovedBenchmarks),
         (verdict_line analyses).
  split; [| split; [| split; [| split]]].
  - unfold report_lines. cbn [app]. by rewrite <- !app_assoc.
  - intros s i a w c t.
    rewrite !not_elem_of_cons, !not_elem_of_app, !not_elem_of_cons.
    rewrite !elem_of_group_lines, !elem_of_names_line.
    repeat split; try done; try (intros [[Heq _] | (? & Heq & _)]; discriminate Heq);
      try (intros [Heq _]; discriminate Heq).
    apply not_elem_of_nil.
  - intros i a w c t Hv.
    destruct (verdict_line_cases analyses) as [Hc | [Hc | Hc]];
      rewrite Hc in Hv; discriminate Hv.
  - apply bucket_lengths.
  - rewrite <- (length_fmap a_name).
    rewrite (analyze_common_names fs baseline_file B C analyses HB Hall).
    unfold sorted, size, set_size. simpl.
    apply Permutation_length, merge_sort_Permutation.
Qed.

Lemma summary_counts_add_up_witness :
  loads fs_tiers "base.json" (loaded doc_tiers_base) ∧
  loads fs_tiers "cur.json" (loaded doc_tiers_cur) ∧
  common (loaded doc_tiers_base) (loaded doc_tiers_cur) ≠ ∅ ∧
  analyze_common (loaded doc_tiers_base) (loaded doc_tiers_cur)
    (common (loaded doc_tiers_base) (loaded doc_tiers_cur)) =
    Ok (analysed doc_tiers_base doc_tiers_cur) ∧
  Forall printable (analysed doc_tiers_base doc_tiers_cur) ∧
  let analyses := analysed doc_tiers_base doc_tiers_cur in
  let out := (run_script fs_tiers argv_ok).2 in
  ∃ before closing,
    out = before ++
          [(Stdout, MsgSummary (length (bucket IMPROVEMENT analyses))
                      (length (bucket ACCEPTABLE analyses))
                      (length (bucket WARNING analyses))
                      (length (bucket CRITICAL analyses)) (length analyses));
           (Stdout, closing)] ∧
    (∀ s i a w c t, (s, MsgSummary i a w c t) ∉ before) ∧
    (∀ i a w c t, closing ≠ MsgSummary i a w c t) ∧
    (length (bucket IMPROVEMENT analyses) + length (bucket ACCEPTABLE analyses) +
     length (bucket WARNING analyses) + length (bucket CRITICAL analyses))%nat =
      length analyses ∧
    length analyses =
      size (common (loaded doc_tiers_base) (loaded doc_tiers_cur)).
Proof.
  assert (HB : loads fs_tiers "base.json" (loaded doc_tiers_base))
    by (exists doc_tiers_base; split; reflexivity).
  assert (HC : loads fs_tiers "cur.json" (loaded doc_tiers_cur))
    by (exists doc_tiers_cur; split; reflexivity).
  assert (Hcommon : common (loaded doc_tiers_base) (loaded doc_tiers_cur) ≠ ∅)
    by (apply (bool_decide_unpack _); vm_compute; exact I).
  assert (Hall : analyze_common (loaded doc_tiers_base) (loaded doc_tiers_cur)
                   (common (loaded doc_tiers_base) (loaded doc_tiers_cur)) =
                 Ok (analysed doc_tiers_base doc_tiers_cur))
    by (vm_compute; reflexivity).
  assert (Hp : Forall printable (analysed doc_tiers_base doc_tiers_cur))
    by (apply (bool_decide_unpack _); vm_compute; exact I).
  repeat (split; [assumption |]).
  exact (summary_counts_add_up fs_tiers "check_fst_regression.py" "cur.json"
           "base.json" _ _ _ HB HC Hcommon Hall Hp).
Defined.

(** X16. In a run that reaches its end, the benchmarks found only in
    the current file are listed as new and those found only in the
    baseline as removed, on standard output, each list complete and in
    ascending name order; a list is printed exactly when there is such
    a benchmark. *)
Theorem added_and_removed_listed fs script current_file baseline_file B C analyses :
  loads fs baseline_file B → loads fs current_file C →
  common B C ≠ ∅ →
  analyze_common B C (common B C) = Ok analyses →
  Forall printable analyses →
  let out := (run_script fs [script; current_file; baseline_file]).2 in
  (∀ s names, (s, MsgNewBenchmarks names) ∈ out ↔
     s = Stdout ∧ (∃ n, is_Some (C !! n) ∧ B !! n = None) ∧
     names = sorted (dom C ∖ dom B)) ∧
  (∀ s names, (s, MsgRemovedBenchmarks names) ∈ out ↔
     s = Stdout ∧ (∃ n, is_Some (B !! n) ∧ C !! n = None) ∧
     names = sorted (dom B ∖ dom C)) ∧
  (∀ n, n ∈ sorted (dom C ∖ dom B) ↔ is_Some (C !! n) ∧ B !! n = None) ∧
  (∀ n, n ∈ sorted (dom B ∖ dom C) ↔ is_Some (B !! n) ∧ C !! n = None) ∧
  StronglySorted String.le (sorted (dom C ∖ dom B)) ∧
  StronglySorted String.le (sorted (dom B ∖ dom C)).
Proof.
  intros HB HC Hcommon Hall Hp out. subst out.
  rewrite (run_script_report fs script current_file baseline_file B C analyses)
    by done.
  cbn [snd].
  assert (Hdiff : ∀ (X Y : gmap string BenchmarkResult) n,
            n ∈ dom X ∖ dom Y ↔ is_Some (X !! n) ∧ Y !! n = None).
  { intros X Y n. by rewrite elem_of_difference, elem_of_dom, not_elem_of_dom. }
  assert (Hne : ∀ (X Y : gmap string BenchmarkResult),
            dom X ∖ dom Y ≠ ∅ ↔ ∃ n, is_Some (X !! n) ∧ Y !! n = None).
  { intros X Y. split.
    - intros Hne'. apply set_choose_L in Hne' as [n Hn]. exists n. by apply Hdiff.
    - intros (n & Hn) Hempty. apply Hdiff in Hn. rewrite Hempty in Hn.
      by apply not_elem_of_empty in Hn. }
  split; [| split; [| split; [| split; [| split]]]].
  - intros s names. rewrite elem_of_cons, elem_of_report_lines. split.
    + intros [Heq | [Heq | [[lvl' Hg] | [Hn | [Hn | [Heq | Heq]]]]]];
        try discriminate Heq.
      * apply elem_of_group_lines in Hg as [[Heq _] | (a & Heq & _)];
          discriminate Heq.
      * apply elem_of_names_line in Hn as [Heq Hne']. injection Heq as -> ->.
        split; [done |]. split; [by apply Hne | done].
      * apply elem_of_names_line in Hn as [Heq _]. discriminate Heq.
      * injection Heq as _ Hv.
        destruct (verdict_line_cases analyses) as [Hc | [Hc | Hc]];
          rewrite Hc in Hv; discriminate Hv.
    + intros (-> & Hex & ->). right.
      right. right. left. apply elem_of_names_line. split; [done | by apply Hne].
  - intros s names. rewrite elem_of_cons, elem_of_report_lines. split.
    + intros [Heq | [Heq | [[lvl' Hg] | [Hn | [Hn | [Heq | Heq]]]]]];
        try discriminate Heq.
      * apply elem_of_group_lines in Hg as [[Heq _] | (a & Heq & _)];
          discriminate Heq.
      * apply elem_of_names_line in Hn as [Heq _]. discriminate Heq.
      * apply elem_of_names_line in Hn as [Heq Hne']. injection Heq as -> ->.
        split; [done |]. split; [by apply Hne | done].
      * injection Heq as _ Hv.
        destruct (verdict_line_cases analyses) as [Hc | [Hc | Hc]];
          rewrite Hc in Hv; discriminate Hv.
    + intros (-> & Hex & ->). right.
      do 3 right. left. apply elem_of_names_line. split; [done | by apply Hne].
  - intros n. destruct (sorted_spec (dom C ∖ dom B)) as (_ & _ & ->). apply Hdiff.
  - intros n. destruct (sorted_spec (dom B ∖ dom C)) as (_ & _ & ->). apply Hdiff.
  - apply sorted_spec.
  - apply sorted_spec.
Qed.

Lemma added_and_removed_listed_witness :
  loads fs_tiers "base.json" (loaded doc_tiers_base) ∧
  loads fs_tiers "cur.json" (loaded doc_tiers_cur) ∧
  common (loaded doc_tiers_base) (loaded doc_tiers_cur) ≠ ∅ ∧
  analyze_common (loaded doc_tiers_base) (loaded doc_tiers_cur)
    (common (loaded doc_tiers_base) (loaded doc_tiers_cur)) =
    Ok (analysed doc_tiers_base doc_tiers_cur) ∧
  Forall printable (analysed doc_tiers_base doc_tiers_cur) ∧
  let B := loaded doc_tiers_base in
  let C := loaded doc_tiers_cur in
  let out := (run_script fs_tiers argv_ok).2 in
  (∀ s names, (s, MsgNewBenchmarks names) ∈ out ↔
     s = Stdout ∧ (∃ n, is_Some (C !! n) ∧ B !! n = None) ∧
     names = sorted (dom C ∖ dom B)) ∧
  (∀ s names, (s, MsgRemovedBenchmarks names) ∈ out ↔
     s = Stdout ∧ (∃ n, is_Some (B !! n) ∧ C !! n = None) ∧
     names = sorted (dom B ∖ dom C)) ∧
  (∀ n, n ∈ sorted (dom C ∖ dom B) ↔ is_Some (C !! n) ∧ B !! n = None) ∧
  (∀ n, n ∈ sorted (dom B ∖ dom C) ↔ is_Some (B !! n) ∧ C !! n = None) ∧
  StronglySorted String.le (sorted (dom C ∖ dom B)) ∧
  StronglySorted String.le (sorted (dom B ∖ dom C)).
Proof.
  assert (HB : loads fs_tiers "base.json" (loaded doc_tiers_base))
    by (exists doc_tiers_base; split; reflexivity).
  assert (HC : loads fs_tiers "cur.json" (loaded doc_tiers_cur))
    by (exists doc_tiers_cur; split; reflexivity).
  assert (Hcommon : common (loaded doc_tiers_base) (loaded doc_tiers_cur) ≠ ∅)
    by (apply (bool_decide_unpack _); vm_compute; exact I).
  assert (Hall : analyze_common (loaded doc_tiers_base) (loaded doc_tiers_cur)
                   (common (loaded doc_tiers_base) (loaded doc_tiers_cur)) =
                 Ok (analysed doc_tiers_base doc_tiers_cur))
    by (vm_compute; reflexivity).
  assert (Hp : Forall printable (analysed doc_tiers_base doc_tiers_cur))
    by (apply (bool_decide_unpack _); vm_compute; exact I).
  repeat (split; [assumption |]).
  exact (added_and_removed_listed fs_tiers "check_fst_regression.py" "cur.json"
           "base.json" _ _ _ HB HC Hcommon Hall Hp).
Defined.

(** The four tiers in one run: groups in order of severity with their
    counts, rows in order of name inside a group, the added benchmark
    listed, exit code 1. *)
Example tiers_run :
  (fun a => (a_name a, level a)) <$> analysed doc_tiers_base doc_tiers_cur =
    [("a", ACCEPTABLE); ("c", CRITICAL); ("i", IMPROVEMENT); ("w", WARNING)] ∧
  (run_script fs_tiers argv_ok).1 = 1 ∧
  (fun e => match e.2 with MsgRow a => inl (a_name a) | m => inr m end) <$>
    (run_script fs_tiers argv_ok).2 =
    [inr (MsgBanner "base.json" "cur.json"); inr MsgAnalysisHeader;
     inr (MsgGroupHeader IMPROVEMENT 1); inl "i";
     inr (MsgGroupHeader ACCEPTABLE 1); inl "a";
     inr (MsgGroupHeader WARNING 1); inl "w";
     inr (MsgGroupHeader CRITICAL 1); inl "c";
     inr (MsgNewBenchmarks ["new"]); inr (MsgSummary 1 1 1 1 4); inr MsgFail].
Proof. repeat split; vm_compute; reflexivity. Qed.

End ReportMore.

(** ** The run *)

Section RunMore.

Implicit Types (B C : gmap string BenchmarkResult).
Implicit Types (analyses : list RegressionAnalysis).

Lemma load_unreadable fs filename m out :
  unreadable fs filename m →
  load_benchmark_results fs filename out =
    (Raise (SystemExit 2), out ++ [(Stderr, m)]).
Proof.
  intros [[Hf ->] | [Hf ->]]; unfold load_benchmark_results; by rewrite Hf.
Qed.

Lemma loader_cases (fs : filesystem) (filename : string) (out : output) :
  (∃ results, loads fs filename results ∧
     load_benchmark_results fs filename out = (Ok results, out)) ∨
  ((∃ data, fs filename = FileJSON data ∧ ∃ b, b ∈ entries data ∧ j_name b = None) ∧
     load_benchmark_results fs filename out = (Raise (KeyError "name"), out)) ∨
  (∃ m, unreadable fs filename m ∧
     load_benchmark_results fs filename out =
       (Raise (SystemExit 2), out ++ [(Stderr, m)])).
Proof.
  destruct (fs filename) as [| | data] eqn:Hf.
  - right. right. exists (MsgFileNotFound filename).
    assert (Hu : unreadable fs filename (MsgFileNotFound filename)) by (left; done).
    split; [done | by apply load_unreadable].
  - right. right. exists (MsgInvalidJSON filename).
    assert (Hu : unreadable fs filename (MsgInvalidJSON filename)) by (right; done).
    split; [done | by apply load_unreadable].
  - destruct (decide (Forall named (entries data))) as [Hall | Hsome].
    + left. destruct (load_entries_total ∅ (entries data) Hall) as [results Hl].
      exists results. assert (loads fs filename results) by by exists data.
      split; [done | by apply loads_ok].
    + right. left.
      apply not_Forall_Exists in Hsome; [| apply _].
      apply Exists_exists in Hsome as (b & Hb & Hn).
      assert (Hnone : j_name b = None).
      { destruct (j_name b) as [n0 |] eqn:E; [| done].
        exfalso. apply Hn. unfold named. rewrite E. by eexists. }
      split; [exists data; split; [done | by exists b] |].
      eapply nameless_entry_raises_aux; [done | by exists b].
Qed.

(** X4. When the baseline file is missing or is not JSON, the run prints
    the banner, writes the complaint to the error stream and exits with
    code 2; the current file is not looked at. *)
Theorem unreadable_baseline_exit_code fs script current_file baseline_file m :
  unreadable fs baseline_file m →
  run_script fs [script; current_file; baseline_file] =
    (2, [(Stdout, MsgBanner baseline_file current_file); (Stderr, m)]).
Proof.
  intros Hu. rewrite run_script_two_arguments. unfold check_regressions.
  erewrite io_bind_ok by reflexivity.
  erewrite io_bind_raise by (by apply load_unreadable). done.
Qed.

Lemma unreadable_baseline_exit_code_witness :
  unreadable fs_no_baseline "base.json" (MsgFileNotFound "base.json") ∧
  run_script fs_no_baseline argv_ok =
    (2, [(Stdout, MsgBanner "base.json" "cur.json");
         (Stderr, MsgFileNotFound "base.json")]).
Proof.
  assert (Hu : unreadable fs_no_baseline "base.json" (MsgFileNotFound "base.json"))
    by (left; split; reflexivity).
  split; [exact Hu |].
  exact (unreadable_baseline_exit_code fs_no_baseline "check_fst_regression.py"
           "cur.json" "base.json" _ Hu).
Defined.

(** X5. When the baseline loads and the current file is missing or is
    not JSON, the run likewise exits with code 2 after the banner and
    the complaint about the current file on the error stream. *)
Theorem unreadable_current_exit_code fs script current_file baseline_file B m :
  loads fs baseline_file B →
  unreadable fs current_file m →
  run_script fs [script; current_file; baseline_file] =
    (2, [(Stdout, MsgBanner baseline_file current_file); (Stderr, m)]).
Proof.
  intros HB Hu. rewrite run_script_two_arguments. unfold check_regressions.
  erewrite io_bind_ok by reflexivity.
  erewrite io_bind_ok by (by apply loads_ok).
  erewrite io_bind_raise by (by apply load_unreadable). done.
Qed.

Lemma unreadable_current_exit_code_witness :
  loads fs_broken_current "base.json" (loaded doc_base) ∧
  unreadable fs_broken_current "cur.json" (MsgInvalidJSON "cur.json") ∧
  run_script fs_broken_current argv_ok =
    (2, [(Stdout, MsgBanner "base.json" "cur.json");
         (Stderr, MsgInvalidJSON "cur.json")]).
Proof.
  assert (HB : loads fs_broken_current "base.json" (loaded doc_base))
    by (exists doc_base; split; reflexivity).
  assert (Hu : unreadable fs_broken_current "cur.json" (MsgInvalidJSON "cur.json"))
    by (right; split; reflexivity).
  split; [exact HB |]. split; [exact Hu |].
  exact (unreadable_current_exit_code fs_broken_current "check_fst_regression.py"
           "cur.json" "base.json" _ _ HB Hu).
Defined.

(** X6. Without a common name (also when a document has no
    ['benchmarks'] key or an empty list) the run prints the banner and
    the error line, both on standard output, analyses nothing and exits
    with code 1. *)
Theorem no_common_benchmarks_run fs script current_file baseline_file B C :
  loads fs baseline_file B → loads fs current_file C →
  dom B ∩ dom C = ∅ →
  run_script fs [script; current_file; baseline_file] =
    (1, [(Stdout, MsgBanner baseline_file current_file);
         (Stdout, MsgNoCommonBenchmarks)]).
Proof.
  intros HB HC Hcommon. rewrite run_script_two_arguments.
  by rewrite (no_common_returns_false fs current_file baseline_file B C [] HB HC Hcommon).
Qed.

Lemma no_common_benchmarks_run_witness :
  loads (two_files (doc []) doc_base) "base.json" ∅ ∧
  loads (two_files (doc []) doc_base) "cur.json" (loaded doc_base) ∧
  dom (∅ : gmap string BenchmarkResult) ∩ dom (loaded doc_base) = ∅ ∧
  run_script (two_files (doc []) doc_base) argv_ok =
    (1, [(Stdout, MsgBanner "base.json" "cur.json");
         (Stdout, MsgNoCommonBenchmarks)]).
Proof.
  assert (HB : loads (two_files (doc []) doc_base) "base.json" ∅)
    by (exists (doc []); split; reflexivity).
  assert (HC : loads (two_files (doc []) doc_base) "cur.json" (loaded doc_base))
    by (exists doc_base; split; reflexivity).
  assert (Hcommon : dom (∅ : gmap string BenchmarkResult) ∩ dom (loaded doc_base) = ∅)
    by (rewrite dom_empty_L; apply (left_absorb_L ∅ (∩))).
  split; [exact HB |]. split; [exact HC |]. split; [exact Hcommon |].
  exact (no_common_benchmarks_run (two_files (doc []) doc_base)
           "check_fst_regression.py" "cur.json" "base.json" _ _ HB HC Hcommon).
Defined.

(** X7. A run that analyses every common benchmark and can print every
    line decides the exit code and the closing line together: code 0
    with the plain pass line when no analysis is critical or a warning,
    code 0 with the pass-with-warnings line when there are warnings but
    nothing critical, code 1 with the fail line when something is
    critical. The output is the banner followed by the report. *)
Theorem run_verdict fs script current_file baseline_file B C analyses :
  loads fs baseline_file B → loads fs current_file C →
  common B C ≠ ∅ →
  analyze_common B C (common B C) = Ok analyses →
  Forall printable analyses →
  ∃ code closing,
    run_script fs [script; current_file; baseline_file] =
      (code, (Stdout, MsgBanner baseline_file current_file) ::
             report_lines analyses (dom B ∖ dom C) (dom C ∖ dom B)) ∧
    last (run_script fs [script; current_file; baseline_file]).2 =
      Some (Stdout, closing) ∧
    ((bucket CRITICAL analyses = [] ∧ bucket WARNING analyses = [] ∧
      code = 0 ∧ closing = MsgPass) ∨
     (bucket CRITICAL analyses = [] ∧ bucket WARNING analyses ≠ [] ∧
      code = 0 ∧ closing = MsgPassWithWarnings) ∨
     (bucket CRITICAL analyses ≠ [] ∧ code = 1 ∧ closing = MsgFail)).
Proof.
  intros HB HC Hcommon Hall Hp.
  rewrite (run_script_report fs script current_file baseline_file B C analyses)
    by done.
  eexists _, (verdict_line analyses). split; [reflexivity |]. split.
  - cbn [snd]. unfold report_lines. rewrite app_comm_cons, !app_assoc.
    by rewrite (last_app_cons _ [(Stdout, verdict_line analyses)]).
  - unfold verdict_line.
    destruct (bucket CRITICAL analyses), (bucket WARNING analyses); simpl; naive_solver.
Qed.

Lemma run_verdict_witness :
  loads fs_tiers "base.json" (loaded doc_tiers_base) ∧
  loads fs_tiers "cur.json" (loaded doc_tiers_cur) ∧
  common (loaded doc_tiers_base) (loaded doc_tiers_cur) ≠ ∅ ∧
  analyze_common (loaded doc_tiers_base) (loaded doc_tiers_cur)
    (common (loaded doc_tiers_base) (loaded doc_tiers_cur)) =
    Ok (analysed doc_tiers_base doc_tiers_cur) ∧
  Forall printable (analysed doc_tiers_base doc_tiers_cur) ∧
  ∃ code closing,
    run_script fs_tiers argv_ok =
      (code, (Stdout, MsgBanner "base.json" "cur.json") ::
             report_lines (analysed doc_tiers_base doc_tiers_cur)
               (dom (loaded doc_tiers_base) ∖ dom (loaded doc_tiers_cur))
               (dom (loaded doc_tiers_cur) ∖ dom (loaded doc_tiers_base))) ∧
    last (run_script fs_tiers argv_ok).2 = Some (Stdout, closing) ∧
    ((bucket CRITICAL (analysed doc_tiers_base doc_tiers_cur) = [] ∧
      bucket WARNING (analysed doc_tiers_base doc_tiers_cur) = [] ∧
      code = 0 ∧ closing = MsgPass) ∨
     (bucket CRITICAL (analysed doc_tiers_base doc_tiers_cur) = [] ∧
      bucket WARNING (analysed doc_tiers_base doc_tiers_cur) ≠ [] ∧
      code = 0 ∧ closing = MsgPassWithWarnings) ∨
     (bucket CRITICAL (analysed doc_tiers_base doc_tiers_cur) ≠ [] ∧
      code = 1 ∧ closing = MsgFail)).
Proof.
  assert (HB : loads fs_tiers "base.json" (loaded doc_tiers_base))
    by (exists doc_tiers_base; split; reflexivity).
  assert (HC : loads fs_tiers "cur.json" (loaded doc_tiers_cur))
    by (exists doc_tiers_cur; split; reflexivity).
  assert (Hcommon : common (loaded doc_tiers_base) (loaded doc_tiers_cur) ≠ ∅)
    by (apply (bool_decide_unpack _); vm_compute; exact I).
  assert (Hall : analyze_common (loaded doc_tiers_base) (loaded doc_tiers_cur)
                   (common (loaded doc_tiers_base) (loaded doc_tiers_cur)) =
                 Ok (analysed doc_tiers_base doc_tiers_cur))
    by (vm_compute; reflexivity).
  assert (Hp : Forall printable (analysed doc_tiers_base doc_tiers_cur))
    by (apply (bool_decide_unpack _); vm_compute; exact I).
  repeat (split; [assumption |]).
  exact (run_verdict fs_tiers "check_fst_regression.py" "cur.json" "base.json"
           _ _ _ HB HC Hcommon Hall Hp).
Defined.

Lemma mapM_ext_in {X Y : Type} (f g : X → result Y) (l : list X) :
  (∀ x, x ∈ l → f x = g x) → mapM f l = mapM g l.
Proof.
  induction l as [| x l IH]; intros Hfg; simpl; [done |].
  rewrite (Hfg x) by by left.
  rewrite IH; [done |]. intros y Hy. apply Hfg. by right.
Qed.

(** X10. The exit code depends only on the benchmarks that the two files
    have in common: two runs whose loaded mappings share the same names
    and agree on the results under those names exit with the same
    code, whatever else either file contains. *)
Theorem exit_code_depends_on_common fs fs' script script'
    current_file current_file' baseline_file baseline_file' B C B' C' :
  loads fs baseline_file B → loads fs current_file C →
  loads fs' baseline_file' B' → loads fs' current_file' C' →
  common B C = common B' C' →
  (∀ n, n ∈ common B C → B !! n = B' !! n ∧ C !! n = C' !! n) →
  (run_script fs [script; current_file; baseline_file]).1 =
  (run_script fs' [script'; current_file'; baseline_file']).1.
Proof.
  intros HB HC HB' HC' Hcommon Hagree. rewrite !run_script_two_arguments.
  rewrite (check_regressions_loaded fs current_file baseline_file B C [] HB HC).
  rewrite (check_regressions_loaded fs' current_file' baseline_file' B' C' [] HB' HC').
  rewrite <- Hcommon.
  destruct (decide (common B C = ∅)) as [Hempty | Hne]; [done |].
  assert (Hsame : analyze_common B' C' (common B C) =
                  analyze_common B C (common B C)).
  { unfold analyze_common, analyze_all. apply mapM_ext_in. intros n Hn%sorted_spec.
    destruct (Hagree n Hn) as [Hb Hc]. unfold analyze_name, getitem. by rewrite Hb, Hc. }
  rewrite Hsame.
  destruct (analyze_common B C (common B C)) as [analyses | e].
  - erewrite !io_bind_ok by reflexivity.
    destruct (decide (Forall printable analyses)) as [Hp | Hp].
    + by rewrite !report_output by done.
    + destruct (report_raise analyses (dom B ∖ dom C) (dom C ∖ dom B)
                  [(Stdout, MsgBanner baseline_file current_file)] Hp) as [out1 Hr1].
      destruct (report_raise analyses (dom B' ∖ dom C') (dom C' ∖ dom B')
                  [(Stdout, MsgBanner baseline_file' current_file')] Hp) as [out2 Hr2].
      simpl. simpl in Hr1, Hr2. by rewrite Hr1, Hr2.
  - erewrite !io_bind_raise by reflexivity. by destruct e.
Qed.

Lemma exit_code_depends_on_common_witness :
  loads fs_scenario3 "base.json" (loaded doc_base) ∧
  loads fs_scenario3 "cur.json"
    (loaded (doc [entry "B" (Py.Int 210); entry "C" (Py.Int 50)])) ∧
  loads (two_files (doc [entry "B" (Py.Int 200)]) (doc [entry "B" (Py.Int 210)]))
    "base.json" (loaded (doc [entry "B" (Py.Int 200)])) ∧
  loads (two_files (doc [entry "B" (Py.Int 200)]) (doc [entry "B" (Py.Int 210)]))
    "cur.json" (loaded (doc [entry "B" (Py.Int 210)])) ∧
  (run_script fs_scenario3 argv_ok).1 =
  (run_script (two_files (doc [entry "B" (Py.Int 200)]) (doc [entry "B" (Py.Int 210)]))
     argv_ok).1.
Proof.
  assert (HB : loads fs_scenario3 "base.json" (loaded doc_base))
    by (exists doc_base; split; reflexivity).
  assert (HC : loads fs_scenario3 "cur.json"
                 (loaded (doc [entry "B" (Py.Int 210); entry "C" (Py.Int 50)])))
    by (eexists; split; reflexivity).
  assert (HB' : loads (two_files (doc [entry "B" (Py.Int 200)]) (doc [entry "B" (Py.Int 210)]))
                  "base.json" (loaded (doc [entry "B" (Py.Int 200)])))
    by (eexists; split; reflexivity).
  assert (HC' : loads (two_files (doc [entry "B" (Py.Int 200)]) (doc [entry "B" (Py.Int 210)]))
                  "cur.json" (loaded (doc [entry "B" (Py.Int 210)])))
    by (eexists; split; reflexivity).
  repeat (split; [assumption |]).
  refine (exit_code_depends_on_common _ _ "check_fst_regression.py"
            "check_fst_regression.py" _ _ _ _ _ _ _ _ HB HC HB' HC' _ _).
  - vm_compute. reflexivity.
  - intros n Hn.
    assert (Hc : common (loaded doc_base)
                   (loaded (doc [entry "B" (Py.Int 210); entry "C" (Py.Int 50)])) =
                 {[ "B" ]}) by (vm_compute; reflexivity).
    rewrite Hc in Hn. apply elem_of_singleton in Hn as ->.
    split; reflexivity.
Defined.

(** X11. A baseline entry without [real_time] and [cpu_time] is loaded
    with time 0, whatever its unit; if the current file has the same
    name, the analysis of that benchmark divides by zero and the whole
    run ends with a traceback and exit code 1. *)
Theorem untimed_baseline_aborts fs script current_file baseline_file
    (data : document) bs1 b bs2 n C :
  fs baseline_file = FileJSON data →
  entries data = bs1 ++ b :: bs2 →
  Forall named (entries data) →
  j_name b = Some n →
  (∀ b', b' ∈ bs2 → j_name b' ≠ Some n) →
  j_real_time b = None → j_cpu_time b = None →
  loads fs current_file C → is_Some (C !! n) →
  ∃ e, (e = ZeroDivisionError ∨ e = OverflowError) ∧
    run_script fs [script; current_file; baseline_file] =
      (1, [(Stdout, MsgBanner baseline_file current_file); (Stderr, MsgTraceback e)]).
Proof.
  intros Hf Hdata Hall Hn Hne Hreal Hcpu HC [c Hc]. rewrite Hdata in Hall.
  destruct (load_entries_stores ∅ bs1 b bs2 n Hall Hn Hne)
    as (B & r & Hload & Hr & _ & Ht).
  assert (HB : loads fs baseline_file B).
  { exists data. split; [done |]. unfold load_document. by rewrite Hdata. }
  assert (Hzero : time_ns r = Py.Int 0).
  { unfold raw_time, get in Ht. rewrite Hreal, Hcpu in Ht. simpl in Ht.
    unfold convert_time in Ht. repeat case_decide; by injection Ht. }
  destruct (zero_baseline_raises fs script current_file baseline_file B C n r c
              HB HC Hr Hc) as (_ & e & He & _ & Hrun).
  { by rewrite Hzero. }
  by exists e.
Qed.

Lemma untimed_baseline_aborts_witness :
  fs_untimed "base.json" = FileJSON (doc [untimed "A"; entry "B" (Py.Int 7)]) ∧
  Forall named (entries (doc [untimed "A"; entry "B" (Py.Int 7)])) ∧
  loads fs_untimed "cur.json" (loaded (doc [entry "A" (Py.Int 10)])) ∧
  is_Some (loaded (doc [entry "A" (Py.Int 10)]) !! "A") ∧
  ∃ e, (e = ZeroDivisionError ∨ e = OverflowError) ∧
    run_script fs_untimed ["check_fst_regression.py"; "cur.json"; "base.json"] =
      (1, [(Stdout, MsgBanner "base.json" "cur.json"); (Stderr, MsgTraceback e)]).
Proof.
  assert (Hall : Forall named (entries (doc [untimed "A"; entry "B" (Py.Int 7)])))
    by (repeat constructor; by eexists).
  assert (HC : loads fs_untimed "cur.json" (loaded (doc [entry "A" (Py.Int 10)])))
    by (eexists; split; reflexivity).
  assert (Hc : is_Some (loaded (doc [entry "A" (Py.Int 10)]) !! "A")) by by eexists.
  split; [reflexivity |]. split; [exact Hall |]. split; [exact HC |]. split; [exact Hc |].
  refine (untimed_baseline_aborts fs_untimed "check_fst_regression.py" "cur.json"
            "base.json" (doc [untimed "A"; entry "B" (Py.Int 7)]) [] (untimed "A")
            [entry "B" (Py.Int 7)] "A" _ eq_refl eq_refl Hall eq_refl _ eq_refl eq_refl
            HC Hc).
  intros b' Hb'. apply list_elem_of_singleton in Hb' as ->. discriminate.
Defined.

(** The ways [check_regressions] can raise. *)
Lemma check_regressions_raises fs current_file baseline_file out e out' :
  check_regressions fs current_file baseline_file out = (Raise e, out') →
  e = SystemExit 2 ∨ e = KeyError "name" ∨ e = ZeroDivisionError ∨ e = OverflowError.
Proof.
  set (out1 := out ++ [(Stdout, MsgBanner baseline_file current_file)]).
  destruct (loader_cases fs baseline_file out1)
    as [(B & HB & HlB) | [[_ HlB] | (m & _ & HlB)]].
  - destruct (loader_cases fs current_file out1)
      as [(C & HC & HlC) | [[_ HlC] | (m & _ & HlC)]].
    + rewrite (check_regressions_loaded fs current_file baseline_file B C out HB HC).
      destruct (decide (common B C = ∅)) as [Hempty | Hne];
        [erewrite io_bind_ok by reflexivity; done |].
      destruct (analyze_common B C (common B C)) as [analyses | e'] eqn:Hall.
      * erewrite io_bind_ok by reflexivity.
        destruct (decide (Forall printable analyses)) as [Hp | Hp];
          [by rewrite report_output by done |].
        destruct (report_raise analyses (dom B ∖ dom C) (dom C ∖ dom B) out1 Hp)
          as [out2 Hr].
        subst out1. rewrite Hr. intros [= <- _]. auto.
      * erewrite io_bind_raise by reflexivity. intros [= <- _].
        unfold analyze_common, analyze_all in Hall.
        apply mapM_raise_inv in Hall as (n & Hn & Hraise).
        apply sorted_spec, elem_of_common in Hn as [[b Hb] [c Hc]].
        rewrite (analyze_name_lookup B C n b c Hb Hc) in Hraise.
        apply analyze_regression_raises in Hraise. tauto.
    + unfold check_regressions. erewrite io_bind_ok by reflexivity.
      erewrite io_bind_ok by exact HlB.
      erewrite io_bind_raise by exact HlC. intros [= <- _]. auto.
    + unfold check_regressions. erewrite io_bind_ok by reflexivity.
      erewrite io_bind_ok by exact HlB.
      erewrite io_bind_raise by exact HlC. intros [= <- _]. auto.
  - unfold check_regressions. erewrite io_bind_ok by reflexivity.
    erewrite io_bind_raise by exact HlB. intros [= <- _]. auto.
  - unfold check_regressions. erewrite io_bind_ok by reflexivity.
    erewrite io_bind_raise by exact HlB. intros [= <- _]. auto.
Qed.

(** X12. Whatever the arguments and the files, the process ends with
    exit code 0, 1 or 2. *)
Theorem exit_code_range (fs : filesystem) (argv : list string) :
  (run_script fs argv).1 = 0 ∨ (run_script fs argv).1 = 1 ∨ (run_script fs argv).1 = 2.
Proof.
  destruct (decide (length argv = 3%nat)) as [Hlen | Hlen].
  - destruct argv as [| script [| current_file [| baseline_file [| ? ?]]]]; try done.
    rewrite run_script_two_arguments.
    destruct (check_regressions fs current_file baseline_file [])
      as [[passed | e] out] eqn:Hcheck.
    + destruct passed; auto.
    + apply check_regressions_raises in Hcheck as [-> | [-> | [-> | ->]]]; auto.
  - right. right. unfold run_script, main. by rewrite decide_True.
Qed.

End RunMore.

(** ** The analysis of special times *)

Section AnalyzerMore.

Lemma float_of_100 : Py.float_of_Z 100 = S754_finite false 7036874417766400 (-46).
Proof. reflexivity. Qed.

Lemma classify_zero s : classify (Py.Float (S754_zero s)) = ACCEPTABLE.
Proof. by destruct s. Qed.

Lemma mul_100_zero s :
  Py.mul (Py.Float (S754_zero s)) (Py.Int 100) = Ok (Py.Float (S754_zero (xorb s false))).
Proof. rewrite mul_lit_ok by (simpl; lia). by rewrite float_of_100. Qed.

Lemma mul_100_nan : Py.mul nan (Py.Int 100) = Ok nan.
Proof. unfold nan. rewrite mul_lit_ok by (simpl; lia). by rewrite float_of_100. Qed.

Lemma SFsub_diag s m e :
  SFsub Py.prec Py.emax (S754_finite s m e) (S754_finite s m e) = S754_zero false.
Proof. unfold SFsub. by rewrite Z.min_id, Z.sub_diag. Qed.

(** X14. A benchmark whose time did not change (a finite, nonzero time,
    the same in both files) has a change of zero percent and is
    acceptable. *)
Theorem unchanged_is_acceptable (baseline current : BenchmarkResult) :
  time_ns current = time_ns baseline →
  finite_nonzero (time_ns baseline) →
  ∃ a s,
    analyze_regression baseline current = Ok a ∧
    regression_pct a = Py.Float (S754_zero s) ∧
    level a = ACCEPTABLE.
Proof.
  intros Heq Hfin. unfold analyze_regression, percent_change. rewrite Heq.
  destruct (time_ns baseline) as [z | [| | | s m e]]; simpl in Hfin; try done.
  - destruct Hfin as [Hz Hrange].
    assert (Hdiv : Py.truediv (Py.Int (z - z)) (Py.Int z) =
                   Ok (Py.Float (S754_zero (xorb false (z <? 0))))).
    { unfold Py.truediv, Py.int_true_divide. rewrite Z.sub_diag.
      by destruct (Z.eqb_spec z 0). }
    unfold Py.sub. rewrite bind_ok, Hdiv, bind_ok, mul_100_zero, bind_ok.
    eexists _, _. split; [reflexivity |]. split; [reflexivity |]. apply classify_zero.
  - assert (Hsub : Py.sub (Py.Float (S754_finite s m e)) (Py.Float (S754_finite s m e)) =
                   Ok (Py.Float (S754_zero false))).
    { unfold Py.sub, Py.as_float. rewrite !bind_ok. by rewrite SFsub_diag. }
    rewrite Hsub, bind_ok.
    assert (Hdiv : Py.truediv (Py.Float (S754_zero false)) (Py.Float (S754_finite s m e)) =
                   Ok (Py.Float (S754_zero (xorb false s)))) by reflexivity.
    rewrite Hdiv, bind_ok, mul_100_zero, bind_ok.
    eexists _, _. split; [reflexivity |]. split; [reflexivity |]. apply classify_zero.
Qed.

Lemma unchanged_is_acceptable_witness :
  time_ns (result_of "A" (Py.Float (Py.float_of_Z 100))) =
    time_ns (result_of "A" (Py.Float (Py.float_of_Z 100))) ∧
  finite_nonzero (Py.Float (Py.float_of_Z 100)) ∧
  ∃ a s,
    analyze_regression (result_of "A" (Py.Float (Py.float_of_Z 100)))
      (result_of "A" (Py.Float (Py.float_of_Z 100))) = Ok a ∧
    regression_pct a = Py.Float (S754_zero s) ∧
    level a = ACCEPTABLE.
Proof.
  assert (Hfin : finite_nonzero (Py.Float (Py.float_of_Z 100))) by exact I.
  split; [reflexivity |]. split; [exact Hfin |].
  exact (unchanged_is_acceptable (result_of "A" (Py.Float (Py.float_of_Z 100)))
           (result_of "A" (Py.Float (Py.float_of_Z 100))) eq_refl Hfin).
Defined.

Lemma SFsub_nan_r f : SFsub Py.prec Py.emax f S754_nan = S754_nan.
Proof. by destruct f. Qed.

(** X15. When the baseline time is not zero and int times are below
    2^1000 in magnitude, a NaN time (the JSON parser accepts [NaN]) in
    either file gives a NaN percentage, which fails every comparison of
    the cascade and is classified as critical. (Over a zero baseline a
    NaN current time raises [ZeroDivisionError] like any other, see
    [nan_over_zero_baseline].) *)
Theorem nan_is_critical (baseline current : BenchmarkResult) :
  time_ns baseline = nan ∨ time_ns current = nan →
  Py.is_zero (time_ns baseline) = false →
  in_range (time_ns baseline) → in_range (time_ns current) →
  ∃ a,
    analyze_regression baseline current = Ok a ∧
    regression_pct a = nan ∧
    level a = CRITICAL.
Proof.
  intros Hnan Hz Hb Hc.
  assert (Hpct : percent_change (time_ns baseline) (time_ns current) = Ok nan).
  { unfold percent_change. destruct Hnan as [Hn | Hn]; rewrite Hn in *.
    - destruct (as_float_ok (time_ns current) Hc) as [fc Hfc].
      assert (Hsub : Py.sub (time_ns current) nan = Ok nan).
      { unfold Py.sub, nan. destruct (time_ns current) as [z | f]; simpl in *.
        - rewrite Hfc, !bind_ok. by rewrite SFsub_nan_r.
        - by rewrite SFsub_nan_r. }
      rewrite Hsub, bind_ok.
      assert (Hdiv : Py.truediv nan nan = Ok nan) by reflexivity.
      by rewrite Hdiv, bind_ok, mul_100_nan.
    - destruct (as_float_ok (time_ns baseline) Hb) as [fb Hfb].
      assert (Hsub : Py.sub nan (time_ns baseline) = Ok nan).
      { unfold Py.sub, nan. destruct (time_ns baseline) as [z | f]; simpl in *.
        - by rewrite Hfb, !bind_ok.
        - done. }
      rewrite Hsub, bind_ok.
      assert (Hdiv : Py.truediv nan (time_ns baseline) = Ok nan).
      { unfold Py.truediv, nan. destruct (time_ns baseline) as [z | f]; simpl in *.
        - rewrite Hfb. simpl. rewrite Hz. by destruct fb.
        - rewrite Hz. by destruct f. }
      by rewrite Hdiv, bind_ok, mul_100_nan. }
  unfold analyze_regression. rewrite Hpct, bind_ok. by eexists.
Qed.

Lemma nan_is_critical_witness :
  (time_ns (result_of "A" (Py.Int 100)) = nan ∨ time_ns (result_of "A" nan) = nan) ∧
  Py.is_zero (Py.Int 100) = false ∧
  in_range (Py.Int 100) ∧ in_range nan ∧
  ∃ a,
    analyze_regression (result_of "A" (Py.Int 100)) (result_of "A" nan) = Ok a ∧
    regression_pct a = nan ∧
    level a = CRITICAL.
Proof.
  assert (Hnan : time_ns (result_of "A" (Py.Int 100)) = nan ∨
                 time_ns (result_of "A" nan) = nan) by (right; reflexivity).
  assert (H100 : in_range (Py.Int 100)) by reflexivity.
  assert (Hn : in_range nan) by exact I.
  split; [exact Hnan |]. split; [reflexivity |]. split; [exact H100 |]. split; [exact Hn |].
  exact (nan_is_critical (result_of "A" (Py.Int 100)) (result_of "A" nan)
           Hnan eq_refl H100 Hn).
Defined.

(** Over a zero baseline a NaN current time is not classified: the
    division raises. *)
Example nan_over_zero_baseline :
  analyze_regression (result_of "A" (Py.Int 0)) (result_of "A" nan) =
    Raise ZeroDivisionError ∧
  analyze_regression (result_of "A" (Py.Float (S754_zero false))) (result_of "A" nan) =
    Raise ZeroDivisionError.
Proof. split; vm_compute; reflexivity. Qed.

End AnalyzerMore.
